(** * ST-Manager server plugin: canonicalizer, fingerprinter, rule engine,
      plan executor and rule store, embedded from the Python sources.

    Python objects that come out of [json.load] are modelled by [value];
    a [dict] is an insertion-ordered association list, exactly the order
    [json.dumps] and [for k in d] observe.  Text is a [string] of bytes
    (UTF-8); [lower], [upper] and [strip] act on the ASCII range. *)

From Stdlib Require Import ZArith Ascii String List Bool Lia.
From stdpp Require Import base list strings sorting pretty gmap.

Local Open Scope Z_scope.

(* ================================================================= *)
(** ** Python strings *)

Module PyStr.

Definition dquote : ascii := "034"%char.
Definition backslash : ascii := "092"%char.

Definition code (c : ascii) : nat := nat_of_ascii c.

(** [str.lower] / [str.upper], on the letters A-Z / a-z. *)
Definition lower_char (c : ascii) : ascii :=
  if (65 <=? code c)%nat && (code c <=? 90)%nat
  then ascii_of_nat (code c + 32) else c.

Definition upper_char (c : ascii) : ascii :=
  if (97 <=? code c)%nat && (code c <=? 122)%nat
  then ascii_of_nat (code c - 32) else c.

Fixpoint lower (s : string) : string :=
  match s with
  | EmptyString => EmptyString
  | String c r => String (lower_char c) (lower r)
  end.

Fixpoint upper (s : string) : string :=
  match s with
  | EmptyString => EmptyString
  | String c r => String (upper_char c) (upper r)
  end.

(** [str.isspace] on one character: TAB, LF, VT, FF, CR, FS..US, SPACE. *)
Definition is_space (c : ascii) : bool :=
  ((9 <=? code c)%nat && (code c <=? 13)%nat)
  || ((28 <=? code c)%nat && (code c <=? 32)%nat).

Fixpoint lstrip (s : string) : string :=
  match s with
  | EmptyString => EmptyString
  | String c r => if is_space c then lstrip r else s
  end.

Fixpoint rstrip (s : string) : string :=
  match s with
  | EmptyString => EmptyString
  | String c r =>
      match rstrip r with
      | EmptyString => if is_space c then EmptyString else String c EmptyString
      | r' => String c r'
      end
  end.

(** [s.strip()], on text whose blanks are the ASCII ones. *)
Definition strip (s : string) : string := rstrip (lstrip s).

(** [s.split(sep)] for a one-character separator: never empty,
    [''.split(',') == ['']]. *)
Fixpoint split (sep : ascii) (s : string) : list string :=
  match s with
  | EmptyString => [EmptyString]
  | String c r =>
      if Ascii.eqb c sep then EmptyString :: split sep r
      else match split sep r with
           | [] => [String c EmptyString]
           | w :: ws => String c w :: ws
           end
  end.

(** [sub in s] on strings. *)
Fixpoint contains (sub s : string) : bool :=
  String.prefix sub s ||
  match s with
  | EmptyString => false
  | String _ r => contains sub r
  end.

(** [c in s] for one character. *)
Fixpoint has_char (c : ascii) (s : string) : bool :=
  match s with
  | EmptyString => false
  | String c' r => Ascii.eqb c c' || has_char c r
  end.

(** [sep.join(parts)] *)
Definition join (sep : string) (parts : list string) : string :=
  String.concat sep parts.

(** The characters of a string, as [for ch in s] yields them. *)
Fixpoint chars (s : string) : list string :=
  match s with
  | EmptyString => []
  | String c r => String c EmptyString :: chars r
  end.

(** [sorted] on a list of strings: a stable merge sort under the
    code-point order. *)
Definition sorted (l : list string) : list string :=
  merge_sort String.le l.

(** [re.sub('[...]', rep, s)] for a character class. *)
Fixpoint replace_class (cls : ascii -> bool) (rep : ascii) (s : string) : string :=
  match s with
  | EmptyString => EmptyString
  | String c r =>
      String (if cls c then rep else c) (replace_class cls rep r)
  end.

Definition hex_digit (n : nat) : ascii :=
  ascii_of_nat (if (n <? 10)%nat then 48 + n else 87 + n).

(** Two lower-case hexadecimal digits of a byte. *)
Definition hex2 (n : nat) : string :=
  String (hex_digit (n / 16)) (String (hex_digit (n mod 16)) EmptyString).

End PyStr.

(* ================================================================= *)
(** ** Python values and dictionaries *)

(** What [json.load] builds.  A float is carried by the text Python
    prints for it ([repr]), e.g. [VFloat "0.5"]. *)
Unset Elimination Schemes.
Inductive value : Type :=
| VNone
| VBool (b : bool)
| VInt (z : Z)
| VFloat (repr : string)
| VStr (s : string)
| VList (items : list value)
| VDict (entries : list (string * value)).
Set Elimination Schemes.

Abbreviation dict := (list (string * value)).

(** Exceptions the modelled code can raise, and fallible results. *)
Inductive exn : Type :=
| AttributeError | TypeError | KeyError | OSError.

Inductive result (A : Type) : Type :=
| Ok (a : A)
| Raise (e : exn).
Arguments Ok {A} a.
Arguments Raise {A} e.

Definition bind {A B : Type} (m : result A) (k : A -> result B) : result B :=
  match m with
  | Ok a => k a
  | Raise e => Raise e
  end.

Notation "'do' x <- m ; k" := (bind m (fun x => k))
  (at level 10, x name, m at level 100, k at level 200).

Module Py.

(** [d.get(k)] as an option; the first binding of [k]. *)
Fixpoint dict_get (k : string) (d : dict) : option value :=
  match d with
  | [] => None
  | (k', v) :: r => if String.eqb k k' then Some v else dict_get k r
  end.

(** [k in d] *)
Definition dict_mem (k : string) (d : dict) : bool :=
  match dict_get k d with Some _ => true | None => false end.

(** [d[k] = v]: an existing key keeps its position, a new key goes last. *)
Fixpoint dict_set (k : string) (v : value) (d : dict) : dict :=
  match d with
  | [] => [(k, v)]
  | (k', v') :: r =>
      if String.eqb k k' then (k, v) :: r else (k', v') :: dict_set k v r
  end.

(** [del d[k]] *)
Fixpoint dict_del (k : string) (d : dict) : dict :=
  match d with
  | [] => []
  | (k', v') :: r =>
      if String.eqb k k' then dict_del k r else (k', v') :: dict_del k r
  end.

(** [d.get(k, default)] *)
Definition get_or (k : string) (default : value) (d : dict) : value :=
  match dict_get k d with Some v => v | None => default end.

(** [d.get(k)], [None] when absent. *)
Definition get (k : string) (d : dict) : value := get_or k VNone d.

Definition keys (d : dict) : list string := map fst d.
Definition values (d : dict) : list value := map snd d.

(** Truth value of an object, as [if x:] and [not x] test it. *)
Definition truthy (v : value) : bool :=
  match v with
  | VNone => false
  | VBool b => b
  | VInt z => negb (z =? 0)
  | VFloat r => negb (String.eqb r "0.0" || String.eqb r "-0.0")
  | VStr s => negb (String.eqb s EmptyString)
  | VList l => match l with [] => false | _ => true end
  | VDict d => match d with [] => false | _ => true end
  end.

(** [x or y] *)
Definition py_or (x y : value) : value := if truthy x then x else y.

Definition is_dict (v : value) : bool :=
  match v with VDict _ => true | _ => false end.

(** [v == s] for a string literal [s]. *)
Definition eq_str (v : value) (s : string) : bool :=
  match v with VStr s' => String.eqb s' s | _ => false end.

(** Every key of a mapping occurs once, at every depth: the shape of
    any object Python can hold. *)
Fixpoint wf (v : value) : bool :=
  match v with
  | VList l => forallb wf l
  | VDict d =>
      bool_decide (NoDup (map fst d))
      && (fix go (d : dict) : bool :=
            match d with
            | [] => true
            | (_, x) :: r => wf x && go r
            end) d
  | _ => true
  end.

End Py.

(* ================================================================= *)
(** ** core/utils/data.py *)

Module Data.
Import Py.

Definition root_priority : list string :=
  [ "name"; "description"; "personality"; "scenario"; "first_mes";
    "mes_example"; "creatorcomment"; "avatar"; "talkativeness"; "fav";
    "tags"; "spec"; "spec_version"; "data"; "create_date" ].

Definition data_priority : list string :=
  [ "name"; "description"; "personality"; "scenario"; "first_mes";
    "mes_example"; "creator_notes"; "system_prompt";
    "post_history_instructions"; "tags"; "creator"; "character_version";
    "alternate_greetings"; "extensions"; "group_only_greetings";
    "character_book" ].

Definition extension_priority : list string :=
  [ "id"; "scriptName"; "name"; "enabled"; "disabled";
    "findRegex"; "replaceString"; "trimStrings"; "placement";
    "runOnEdit"; "markdownOnly"; "promptOnly";
    "minDepth"; "maxDepth"; "substituteRegex";
    "type"; "content"; "info"; "button"; "data";
    "top"; "bottom"; "left"; "right" ].

Definition str_in (k : string) (l : list string) : bool :=
  existsb (String.eqb k) l.

(** The loop that merges the three lists, keeping the first occurrence
    of every key ([all_priority], with [seen] as the set of its keys). *)
Definition all_priority : list string :=
  fold_left
    (fun acc k => if str_in k acc then acc else acc ++ [k])
    (root_priority ++ data_priority ++ extension_priority) [].

(** The two loops that fill [sorted_dict] from an [obj] whose values
    have already been sorted. *)
Definition reorder (obj : dict) : dict :=
  let step1 :=
    fold_left
      (fun sorted_dict k =>
         match dict_get k obj with
         | Some v => dict_set k v sorted_dict
         | None => sorted_dict
         end)
      all_priority [] in
  fold_left
    (fun sorted_dict k =>
       if str_in k all_priority then sorted_dict
       else dict_set k (get k obj) sorted_dict)
    (PyStr.sorted (keys obj)) step1.

(** [deterministic_sort].  The recursive calls [deterministic_sort(obj[k])]
    are made on every value first, which reads the same values. *)
Fixpoint deterministic_sort (obj : value) : value :=
  match obj with
  | VDict d =>
      VDict (reorder
               ((fix sort_values (d : dict) : dict :=
                   match d with
                   | [] => []
                   | (k, v) :: r => (k, deterministic_sort v) :: sort_values r
                   end) d))
  | VList l => VList (map deterministic_sort l)
  | _ => obj
  end.

Definition core_fields : list string :=
  [ "name"; "description"; "personality"; "scenario"; "first_mes";
    "mes_example"; "creator_notes"; "system_prompt";
    "post_history_instructions"; "tags"; "creator"; "character_version";
    "alternate_greetings"; "extensions"; "character_book" ].

Definition key_mapping : list (string * string) :=
  [ ("creatorcomment", "creator_notes") ].

(** The inner loop over [key_mapping.items()]. *)
Definition root_key_of (field : string) : string :=
  match find (fun p => String.eqb (snd p) field) key_mapping with
  | Some p => fst p
  | None => field
  end.

(** [root_val] of one turn: the value under the legacy key when the
    root has that key, else the value under [field], else [None]. *)
Definition root_val (card_data : dict) (field : string) : value :=
  match dict_get (root_key_of field) card_data with
  | Some v => v
  | None => get field card_data
  end.

(** One turn of [for field in core_fields]. *)
Definition sync_field (card_data : dict) (data_block : dict)
    (field : string) : dict :=
  if dict_mem field data_block then data_block
  else match root_val card_data field with
       | VNone => data_block
       | v => dict_set field v data_block
       end.

(** [for k in ['spec', 'spec_version', 'data']: if k in d: del d[k]] *)
Definition strip_root_keys (d : dict) : dict :=
  fold_left (fun d k => if dict_mem k d then dict_del k d else d)
    ["spec"; "spec_version"; "data"] d.

(** Steps 4 and 5: move a root key under [data], then drop it from the
    root.  Returns the root and the data block. *)
Definition relocate (k : string) (st : dict * dict) : dict * dict :=
  let '(card_data, data_block) := st in
  match dict_get k card_data with
  | Some v =>
      (dict_del k card_data,
       if dict_mem k data_block then data_block
       else dict_set k v data_block)
  | None => st
  end.

(** [normalize_card_v3].  The dictionary is changed in place in the
    source; [data_block] aliases [card_data['data']], so the block is
    written back under [data] at the end, where the key already sits. *)
Definition normalize_card_v3 (card_data : value) : value :=
  match card_data with
  | VDict root0 =>
      let '(root1, block0) :=
        match dict_get "data" root0 with
        | Some (VDict d) => (root0, d)
        | _ =>
            let copy := strip_root_keys root0 in
            (dict_set "data" (VDict copy) root0, copy)
        end in
      let root2 :=
        dict_set "spec_version" (VStr "3.0")
          (dict_set "spec" (VStr "chara_card_v3") root1) in
      let block1 := fold_left (sync_field root2) core_fields block0 in
      let '(root3, block2) := relocate "character_book" (root2, block1) in
      let '(root4, block3) := relocate "extensions" (root3, block2) in
      let block4 := strip_root_keys block3 in
      VDict (dict_set "data" (VDict block4) root4)
  | _ => card_data
  end.

End Data.

(* ================================================================= *)
(** ** hashlib.md5 (RFC 1321), on 32-bit words held in [Z] *)

Module Md5.

Definition mask32 : Z := 4294967295.
Definition add32 (a b : Z) : Z := Z.land (a + b) mask32.
Definition not32 (a : Z) : Z := Z.lxor a mask32.
Definition rotl32 (x n : Z) : Z :=
  Z.land (Z.lor (Z.shiftl x n) (Z.shiftr x (32 - n))) mask32.

Definition shifts : list Z :=
  [ 7; 12; 17; 22; 7; 12; 17; 22; 7; 12; 17; 22; 7; 12; 17; 22;
    5; 9; 14; 20; 5; 9; 14; 20; 5; 9; 14; 20; 5; 9; 14; 20;
    4; 11; 16; 23; 4; 11; 16; 23; 4; 11; 16; 23; 4; 11; 16; 23;
    6; 10; 15; 21; 6; 10; 15; 21; 6; 10; 15; 21; 6; 10; 15; 21 ].

(** [floor (2^32 * abs (sin (i + 1)))] *)
Definition sines : list Z :=
  [ 3614090360; 3905402710; 606105819; 3250441966;
    4118548399; 1200080426; 2821735955; 4249261313;
    1770035416; 2336552879; 4294925233; 2304563134;
    1804603682; 4254626195; 2792965006; 1236535329;
    4129170786; 3225465664; 643717713; 3921069994;
    3593408605; 38016083; 3634488961; 3889429448;
    568446438; 3275163606; 4107603335; 1163531501;
    2850285829; 4243563512; 1735328473; 2368359562;
    4294588738; 2272392833; 1839030562; 4259657740;
    2763975236; 1272893353; 4139469664; 3200236656;
    681279174; 3936430074; 3572445317; 76029189;
    3654602809; 3873151461; 530742520; 3299628645;
    4096336452; 1126891415; 2878612391; 4237533241;
    1700485571; 2399980690; 4293915773; 2240044497;
    1873313359; 4264355552; 2734768916; 1309151649;
    4149444226; 3174756917; 718787259; 3951481745 ].

Definition state : Type := Z * Z * Z * Z.

Definition init : state := (1732584193, 4023233417, 2562383102, 271733878).

Definition step (M : list Z) (st : state) (i : nat) : state :=
  let '(a, b, c, d) := st in
  let '(f, g) :=
    if (i <? 16)%nat then
      (Z.lor (Z.land b c) (Z.land (not32 b) d), i)
    else if (i <? 32)%nat then
      (Z.lor (Z.land d b) (Z.land (not32 d) c), ((5 * i + 1) mod 16)%nat)
    else if (i <? 48)%nat then
      (Z.lxor (Z.lxor b c) d, ((3 * i + 5) mod 16)%nat)
    else
      (Z.lxor c (Z.lor b (not32 d)), ((7 * i) mod 16)%nat) in
  let f' := add32 (add32 (add32 f a) (nth i sines 0)) (nth g M 0) in
  (d, add32 b (rotl32 f' (nth i shifts 0)), b, c).

(** Little-endian 32-bit words of a run of bytes. *)
Fixpoint words (bs : list Z) : list Z :=
  match bs with
  | b0 :: b1 :: b2 :: b3 :: r =>
      (b0 + 256 * (b1 + 256 * (b2 + 256 * b3))) :: words r
  | _ => []
  end.

Definition block (st : state) (bs : list Z) : state :=
  let '(a0, b0, c0, d0) := st in
  let '(a, b, c, d) := fold_left (step (words bs)) (seq 0 64) st in
  (add32 a0 a, add32 b0 b, add32 c0 c, add32 d0 d).

Fixpoint blocks (n : nat) (st : state) (bs : list Z) : state :=
  match n with
  | O => st
  | S n' => blocks n' (block st (firstn 64 bs)) (skipn 64 bs)
  end.

Fixpoint le_bytes (n : nat) (x : Z) : list Z :=
  match n with
  | O => []
  | S n' => (x mod 256) :: le_bytes n' (x / 256)
  end.

Definition pad (bs : list Z) : list Z :=
  let len := Z.of_nat (length bs) in
  bs ++ [128] ++ repeat 0 (Z.to_nat ((55 - len) mod 64))
     ++ le_bytes 8 ((8 * len) mod 18446744073709551616).

Definition hex_bytes (bs : list Z) : string :=
  fold_right (fun b acc => PyStr.hex2 (Z.to_nat b) +:+ acc) EmptyString bs.

(** [hashlib.md5(bs).hexdigest()] *)
Definition hexdigest (bs : list Byte.byte) : string :=
  let padded := pad (map (fun b => Z.of_N (Byte.to_N b)) bs) in
  let '(a, b, c, d) := blocks (length padded / 64) init padded in
  hex_bytes (le_bytes 4 a ++ le_bytes 4 b ++ le_bytes 4 c ++ le_bytes 4 d).

(** [s.encode('utf-8')]: text is already held as its bytes. *)
Definition encode (s : string) : list Byte.byte :=
  String.list_byte_of_string s.

End Md5.

(* ================================================================= *)
(** ** Built-ins: [str], [repr], [in], iteration, [json.dumps] *)

Module Builtins.
Import Py.

(** Escapes of [repr] on a string, for the chosen quote character. *)
Definition repr_char (quote c : ascii) : string :=
  if Ascii.eqb c PyStr.backslash then String c (String c EmptyString)
  else if Ascii.eqb c quote then String PyStr.backslash (String c EmptyString)
  else if Ascii.eqb c "010"%char then String PyStr.backslash "n"
  else if Ascii.eqb c "013"%char then String PyStr.backslash "r"
  else if Ascii.eqb c "009"%char then String PyStr.backslash "t"
  else if (PyStr.code c <? 32)%nat || (PyStr.code c =? 127)%nat
       then String PyStr.backslash ("x" +:+ PyStr.hex2 (PyStr.code c))
  else String c EmptyString.

Fixpoint repr_chars (quote : ascii) (s : string) : string :=
  match s with
  | EmptyString => EmptyString
  | String c r => repr_char quote c +:+ repr_chars quote r
  end.

(** [repr(s)]: single quotes, unless the text has one and no double quote. *)
Definition repr_str (s : string) : string :=
  let quote :=
    if PyStr.has_char "'"%char s && negb (PyStr.has_char PyStr.dquote s)
    then PyStr.dquote else "'"%char in
  String quote (repr_chars quote s +:+ String quote EmptyString).

(** [repr(v)] *)
Fixpoint py_repr (v : value) : string :=
  match v with
  | VNone => "None"
  | VBool true => "True"
  | VBool false => "False"
  | VInt z => pretty z
  | VFloat r => r
  | VStr s => repr_str s
  | VList l => "[" +:+ PyStr.join ", " (map py_repr l) +:+ "]"
  | VDict d =>
      "{" +:+
      PyStr.join ", "
        ((fix items (d : dict) : list string :=
            match d with
            | [] => []
            | (k, x) :: r => (repr_str k +:+ ": " +:+ py_repr x) :: items r
            end) d)
      +:+ "}"
  end.

(** [str(v)] *)
Definition py_str (v : value) : string :=
  match v with
  | VStr s => s
  | _ => py_repr v
  end.

(** [s in v] for a string [s]: a key of a mapping, an element of a
    list, a substring of a string; other objects are not iterable. *)
Definition str_in_value (s : string) (v : value) : result bool :=
  match v with
  | VDict d => Ok (dict_mem s d)
  | VList l => Ok (existsb (fun x => eq_str x s) l)
  | VStr t => Ok (PyStr.contains s t)
  | _ => Raise TypeError
  end.

(** What [for x in v] visits. *)
Definition py_iter (v : value) : result (list value) :=
  match v with
  | VList l => Ok l
  | VDict d => Ok (map VStr (keys d))
  | VStr s => Ok (map VStr (PyStr.chars s))
  | _ => Raise TypeError
  end.

(** [o.get(k, default)] on any object: only a mapping has [get]. *)
Definition attr_get (o : value) (k : string) (default : value) : result value :=
  match o with
  | VDict d => Ok (get_or k default d)
  | _ => Raise AttributeError
  end.

(** One character inside a JSON string, [ensure_ascii=False]. *)
Definition json_char (c : ascii) : string :=
  if Ascii.eqb c PyStr.dquote then String PyStr.backslash (String c EmptyString)
  else if Ascii.eqb c PyStr.backslash then String c (String c EmptyString)
  else if Ascii.eqb c "010"%char then String PyStr.backslash "n"
  else if Ascii.eqb c "013"%char then String PyStr.backslash "r"
  else if Ascii.eqb c "009"%char then String PyStr.backslash "t"
  else if Ascii.eqb c "008"%char then String PyStr.backslash "b"
  else if Ascii.eqb c "012"%char then String PyStr.backslash "f"
  else if (PyStr.code c <? 32)%nat
       then String PyStr.backslash ("u00" +:+ PyStr.hex2 (PyStr.code c))
  else String c EmptyString.

Fixpoint json_chars (s : string) : string :=
  match s with
  | EmptyString => EmptyString
  | String c r => json_char c +:+ json_chars r
  end.

Definition json_string (s : string) : string :=
  String PyStr.dquote (json_chars s +:+ String PyStr.dquote EmptyString).

Definition json_float (r : string) : string :=
  if String.eqb r "nan" then "NaN"
  else if String.eqb r "inf" then "Infinity"
  else if String.eqb r "-inf" then "-Infinity"
  else r.

(** [json.dumps(v, ensure_ascii=False, separators=(',', ':'))] *)
Fixpoint json_dumps (v : value) : string :=
  match v with
  | VNone => "null"
  | VBool true => "true"
  | VBool false => "false"
  | VInt z => pretty z
  | VFloat r => json_float r
  | VStr s => json_string s
  | VList l => "[" +:+ PyStr.join "," (map json_dumps l) +:+ "]"
  | VDict d =>
      "{" +:+
      PyStr.join ","
        ((fix items (d : dict) : list string :=
            match d with
            | [] => []
            | (k, x) :: r => (json_string k +:+ ":" +:+ json_dumps x) :: items r
            end) d)
      +:+ "}"
  end.

End Builtins.

(* ================================================================= *)
(** ** core/utils/hash.py *)

Module Hash.
Import Py Builtins.

(** A file system as far as [os.stat] and [open(path, 'rb')] see it. *)
Definition filesystem : Type := string -> option (list Byte.byte).

(** [hashlib.md5()] object: the bytes fed to it so far. *)
Definition hasher : Type := list Byte.byte.
Definition update (h : hasher) (chunk : list Byte.byte) : hasher := h ++ chunk.

(** An open binary file: its bytes and the read position. *)
Record handle : Type := { content : list Byte.byte; pos : nat }.

(** [f.read(n)] *)
Definition read (f : handle) (n : nat) : list Byte.byte * handle :=
  let chunk := firstn n (skipn (pos f) (content f)) in
  (chunk, {| content := content f; pos := (pos f + length chunk)%nat |}).

(** [f.seek(-n, os.SEEK_END)] *)
Definition seek_end (f : handle) (n : nat) : result handle :=
  if (n <=? length (content f))%nat
  then Ok {| content := content f; pos := (length (content f) - n)%nat |}
  else Raise OSError.

Definition SAMPLE : nat := (64 * 1024)%nat.
Definition CHUNK : nat := (8 * 1024)%nat.

(** [for chunk in iter(lambda: f.read(8192), b''): hasher.update(chunk)];
    every turn but the last reads at least one byte, so the length of
    the file bounds the turns. *)
Fixpoint read_all (turns : nat) (f : handle) (h : hasher) : hasher :=
  match turns with
  | O => h
  | S n =>
      match read f CHUNK with
      | ([], _) => h
      | (chunk, f') => read_all n f' (update h chunk)
      end
  end.

(** [get_file_hash_and_size]: the hex digest and the size, or
    the empty digest and size 0 when anything raises. *)
Definition get_file_hash_and_size (fs : filesystem) (file_path : string)
    : string * nat :=
  match fs file_path with
  | None => (EmptyString, O)
  | Some bytes =>
      let file_size := length bytes in
      let hasher0 := update [] (Md5.encode (pretty (Z.of_nat file_size))) in
      let f := {| content := bytes; pos := O |} in
      if (file_size <=? SAMPLE * 2)%nat then
        (Md5.hexdigest (read_all (S file_size) f hasher0), file_size)
      else
        let '(head, f1) := read f SAMPLE in
        let hasher1 := update hasher0 head in
        match seek_end f1 SAMPLE with
        | Raise _ => (EmptyString, O)
        | Ok f2 =>
            let '(tail, _) := read f2 SAMPLE in
            (Md5.hexdigest (update hasher1 tail), file_size)
        end
  end.

(** What [_calculate_data_hash] returns: a string computed from the
    data, or, on the failure path, the reading [str(time.time())] of
    the clock at that moment. *)
Inductive fingerprint : Type :=
| Hex (s : string)
| Timestamp (reading : string).

(** What the [try] block depends on beside the document, taken as
    given: whether the interpreter carries the sort, [json.dumps] and
    the encoding to UTF-8 of a document to the end.  They raise on a
    nesting deeper than the recursion limit allows ([RecursionError])
    and on text with a lone surrogate ([UnicodeEncodeError]); the
    [except] branch catches both. *)
Class Interpreter : Type := {
  serializes : value -> bool
}.

Section WithInterpreter.
Context {IP : Interpreter}.

(** [_calculate_data_hash]; [now] is what [str(time.time())] gives
    when the [except] branch is reached. *)
Definition _calculate_data_hash (now : string) (data : value) : fingerprint :=
  if negb (truthy data) then Hex EmptyString
  else
    let normalized : result value :=
      do has_name <- str_in_value "name" data;
      do is_card <- (if has_name then Ok true else str_in_value "data" data);
      Ok (if is_card then Data.normalize_card_v3 data else data) in
    match normalized with
    | Raise _ => Timestamp now
    | Ok data' =>
        if serializes data' then
          let sorted_data := Data.deterministic_sort data' in
          let json_str := json_dumps sorted_data in
          Hex (Md5.hexdigest (Md5.encode json_str))
        else Timestamp now
    end.

End WithInterpreter.

End Hash.

(* ================================================================= *)
(** ** core/automation/constants.py *)

Module Constants.

Definition FIELD_MAP : list (string * string) :=
  [ ("char_name", "char_name"); ("description", "description");
    ("creator", "creator"); ("char_version", "char_version");
    ("first_mes", "first_mes"); ("mes_example", "mes_example");
    ("tags", "tags"); ("alternate_greetings", "alternate_greetings");
    ("ui_summary", "ui_summary"); ("is_favorite", "is_favorite");
    ("token_count", "token_count"); ("file_size", "file_size");
    ("wi_name", "character_book"); ("wi_content", "character_book");
    ("regex_name", "extensions.regex_scripts");
    ("regex_content", "extensions.regex_scripts");
    ("st_script_name", "extensions.tavern_helper");
    ("st_script_content", "extensions.tavern_helper") ].

Definition OP_EQ : string := "eq".
Definition OP_NEQ : string := "neq".
Definition OP_CONTAINS : string := "contains".
Definition OP_NOT_CONTAINS : string := "not_contains".
Definition OP_REGEX : string := "regex".
Definition OP_EXISTS : string := "exists".
Definition OP_NOT_EXISTS : string := "not_exists".
Definition OP_GT : string := "gt".
Definition OP_LT : string := "lt".
Definition OP_TRUE : string := "is_true".
Definition OP_FALSE : string := "is_false".

End Constants.

(* ================================================================= *)
(** ** core/automation/engine.py *)

(** The two library calls of the engine that are taken as given:
    [float(v)] with the order on its results, and [re.search]. *)
Class Runtime : Type := {
  number : Type;
  (** [float(v)]; [None] when it raises. *)
  py_float : value -> option number;
  number_ltb : number -> number -> bool;
  (** [bool(re.search(pattern, text, re.IGNORECASE if ignore_case else 0))];
      [None] when the pattern does not compile. *)
  re_search : string -> string -> bool -> option bool
}.

Module Engine.
Import Py Builtins Constants.

(** The mappings among the elements of a list
    ([for s in l if isinstance(s, dict)]). *)
Fixpoint dicts_of (l : list value) : list dict :=
  match l with
  | [] => []
  | VDict d :: r => d :: dicts_of r
  | _ :: r => dicts_of r
  end.

(** [[str(s.get(k, '')) for s in l if isinstance(s, dict)]] *)
Definition str_fields (k : string) (l : list value) : value :=
  VList (map (fun d => VStr (py_str (get_or k (VStr EmptyString) d))) (dicts_of l)).

(** The scan of [helper_data] for the pair labelled ["scripts"];
    the result is [scripts_list]. *)
Fixpoint find_scripts (helper_data : list value) : list value :=
  match helper_data with
  | [] => []
  | VList (label :: payload :: _) :: r =>
      if eq_str label "scripts"
      then match payload with VList l => l | _ => [] end
      else find_scripts r
  | _ :: r => find_scripts r
  end.

(** The walk along a dotted path. *)
Fixpoint walk (keys : list string) (v : value) : value :=
  match keys with
  | [] => v
  | k :: r =>
      match v with
      | VDict d => walk r (get k d)
      | _ => VNone
      end
  end.

(** [card_data.get(field_key)] for an arbitrary key object. *)
Definition get_by_value (card_data : value) (field_key : value) : result value :=
  match card_data with
  | VDict d =>
      match field_key with
      | VStr k => Ok (get k d)
      | VList _ | VDict _ => Raise TypeError
      | _ => Ok VNone
      end
  | _ => Raise AttributeError
  end.

Definition _get_field_value (card_data field_key specific_target : value)
    : result value :=
  if negb (truthy field_key) then Ok VNone
  else if eq_str field_key "extensions.regex_scripts"
          || eq_str field_key "regex_scripts" then
    do extensions <- attr_get card_data "extensions" (VDict []);
    do scripts0 <- attr_get extensions "regex_scripts" VNone;
    do scripts <- (if negb (truthy scripts0)
                   then attr_get card_data "regex_scripts" (VList [])
                   else Ok scripts0);
    match scripts with
    | VList l =>
        if eq_str specific_target "regex_content" then
          Ok (VList (map (fun d =>
                        VStr (py_str (py_or (py_or (get "findRegex" d)
                                                   (get "regex" d))
                                            (VStr EmptyString))))
                      (dicts_of l)))
        else Ok (str_fields "scriptName" l)
    | _ => Ok (VList [])
    end
  else if eq_str field_key "character_book" then
    do book <- attr_get card_data "character_book" (VDict []);
    do entries0 <- attr_get book "entries" (VList []);
    let entries :=
      match entries0 with VDict d => VList (values d) | _ => entries0 end in
    match entries with
    | VList l =>
        if eq_str specific_target "wi_content" then Ok (str_fields "content" l)
        else if eq_str specific_target "wi_name" then Ok (str_fields "comment" l)
        else
          Ok (VList (flat_map
                       (fun d => [ VStr (py_str (get_or "content" (VStr EmptyString) d));
                                   VStr (py_str (get_or "comment" (VStr EmptyString) d)) ])
                       (dicts_of l)))
    | _ => Ok (VList [])
    end
  else if eq_str field_key "extensions.tavern_helper" then
    do extensions <- attr_get card_data "extensions" (VDict []);
    do helper_data <- attr_get extensions "tavern_helper" (VList []);
    match helper_data with
    | VList items =>
        let scripts_list := find_scripts items in
        match scripts_list with
        | [] => Ok (VList [])
        | _ =>
            if eq_str specific_target "st_script_content"
            then Ok (str_fields "content" scripts_list)
            else Ok (str_fields "name" scripts_list)
        end
    | _ => Ok (VList [])
    end
  else
    do dotted <- str_in_value "." field_key;
    if dotted then
      match field_key with
      | VStr k => Ok (walk (PyStr.split "."%char k) card_data)
      | _ => Raise AttributeError
      end
    else get_by_value card_data field_key.

Section WithRuntime.
Context {RT : Runtime}.

(** Comparison with the empty string and with the empty list. *)
Definition is_empty_str (v : value) : bool :=
  match v with VStr EmptyString => true | _ => false end.
Definition is_empty_list (v : value) : bool :=
  match v with VList [] => true | _ => false end.
Definition is_none (v : value) : bool :=
  match v with VNone => true | _ => false end.

Definition truthy_words : list string := ["true"; "1"; "yes"; "on"].

(** The body of the [try] in [_check_condition]. *)
Definition check_body (value_ operator target_value case_sensitive : value)
    : result bool :=
  if eq_str operator OP_EXISTS then
    Ok (negb (is_none value_) && negb (is_empty_str value_)
        && negb (is_empty_list value_))
  else if eq_str operator OP_NOT_EXISTS then
    Ok (is_none value_ || is_empty_str value_ || is_empty_list value_)
  else if is_none value_ then Ok false
  else if eq_str operator OP_GT || eq_str operator OP_LT then
    match py_float value_, py_float target_value with
    | Some val_num, Some tgt_num =>
        Ok (if eq_str operator OP_GT then number_ltb tgt_num val_num
            else number_ltb val_num tgt_num)
    | _, _ => Ok false
    end
  else if eq_str operator OP_TRUE || eq_str operator OP_FALSE then
    let bool_val :=
      existsb (String.eqb (PyStr.lower (py_str value_))) truthy_words in
    Ok (if eq_str operator OP_TRUE then bool_val else negb bool_val)
  else
    let fold_case := negb (truthy case_sensitive)
                     && negb (eq_str operator OP_REGEX) in
    let val_str :=
      if fold_case then PyStr.lower (py_str value_) else py_str value_ in
    let tgt_str :=
      if fold_case then PyStr.lower (py_str target_value)
      else py_str target_value in
    if eq_str operator OP_EQ then
      match value_ with
      | VList items =>
          do has_comma <- str_in_value "," target_value;
          do target_list <-
            (if has_comma then
               match target_value with
               | VStr t =>
                   Ok (map (fun t => PyStr.lower (PyStr.strip t))
                         (PyStr.split ","%char t))
               | _ => Raise AttributeError
               end
             else Ok [tgt_str]);
          let value_list := map (fun v => PyStr.lower (py_str v)) items in
          Ok (bool_decide (PyStr.sorted value_list = PyStr.sorted target_list))
      | _ => Ok (String.eqb val_str tgt_str)
      end
    else if eq_str operator OP_NEQ then
      Ok (negb (String.eqb val_str tgt_str))
    else if eq_str operator OP_CONTAINS then
      match value_ with
      | VList items =>
          if negb (truthy case_sensitive) then
            Ok (existsb (fun v => String.eqb tgt_str (PyStr.lower (py_str v))) items)
          else
            Ok (existsb (fun v => String.eqb (py_str target_value) (py_str v)) items)
      | _ => Ok (PyStr.contains tgt_str val_str)
      end
    else if eq_str operator OP_NOT_CONTAINS then
      match value_ with
      | VList items =>
          if negb (truthy case_sensitive) then
            Ok (negb (existsb (fun v => String.eqb (PyStr.lower (py_str v)) tgt_str) items))
          else
            Ok (negb (existsb (fun v => String.eqb (py_str v) (py_str target_value)) items))
      | _ => Ok (negb (PyStr.contains tgt_str val_str))
      end
    else if eq_str operator OP_REGEX then
      match target_value with
      | VStr pattern =>
          match re_search pattern (py_str value_) (negb (truthy case_sensitive)) with
          | Some found => Ok found
          | None => Raise TypeError
          end
      | _ => Raise TypeError
      end
    else Ok false.

(** [_check_condition]: any exception is logged and yields [False]. *)
Definition _check_condition (value_ operator target_value case_sensitive : value)
    : bool :=
  match check_body value_ operator target_value case_sensitive with
  | Ok b => b
  | Raise _ => false
  end.

(** [o[k]] for a string key. *)
Definition subscript (o : value) (k : string) : result value :=
  match o with
  | VDict d =>
      match dict_get k d with
      | Some v => Ok v
      | None => Raise KeyError
      end
  | _ => Raise TypeError
  end.

(** [FIELD_MAP.get(raw_field, raw_field)]; a list or a mapping
    cannot be hashed. *)
Definition map_field (raw_field : value) : result value :=
  match raw_field with
  | VStr k =>
      Ok (match find (fun p => String.eqb (fst p) k) FIELD_MAP with
          | Some p => VStr (snd p)
          | None => raw_field
          end)
  | VList _ | VDict _ => Raise TypeError
  | _ => Ok raw_field
  end.

(** [x.upper()], which only a string has. *)
Definition upper_of (v : value) : result string :=
  match v with
  | VStr s => Ok (PyStr.upper s)
  | _ => Raise AttributeError
  end.

(** Runs [f] over a list in order; the first exception ends the loop. *)
Fixpoint for_each {A B : Type} (f : A -> result B) (l : list A)
    : result (list B) :=
  match l with
  | [] => Ok []
  | x :: r =>
      do y <- f x;
      do ys <- for_each f r;
      Ok (y :: ys)
  end.

(** [all(results)] / [any(results)] *)
Definition all (results : list bool) : bool := forallb (fun b => b) results.
Definition any (results : list bool) : bool := existsb (fun b => b) results.

(** One turn of [for cond in conditions]. *)
Definition eval_condition (card_data cond : value) : result bool :=
  do raw_field <- subscript cond "field";
  do mapped_field <- map_field raw_field;
  do op <- subscript cond "operator";
  do val <- attr_get cond "value" VNone;
  do case <- attr_get cond "case_sensitive" (VBool false);
  do actual_val <- _get_field_value card_data mapped_field raw_field;
  Ok (_check_condition actual_val op val case).

(** One turn of [for group in rule_groups]: the value appended to
    [group_results]. *)
Definition eval_group (card_data group : value) : result bool :=
  do conditions <- attr_get group "conditions" (VList []);
  do logic <- attr_get group "logic" (VStr "AND");
  do group_logic <- upper_of logic;
  if negb (truthy conditions) then Ok false
  else
    do conds <- py_iter conditions;
    do cond_results <- for_each (eval_condition card_data) conds;
    Ok (if String.eqb group_logic "AND" then all cond_results
        else any cond_results).

(** How one turn of [for rule in ...] ends. *)
Inductive outcome : Type :=
| Disabled                 (* [continue] on [enabled] *)
| NoGroups                 (* [continue] on an empty group list *)
| NoMatch                  (* the rule was evaluated and did not match *)
| Matched (actions : list value) (stop : bool).

(** The group list after the legacy wrapping. *)
Definition normalized_groups (rule : dict) : value :=
  let rule_groups := get_or "groups" (VList []) rule in
  if negb (truthy rule_groups) && truthy (get "conditions" rule) then
    VList [ VDict [ ("logic", VStr "AND");
                    ("conditions", get_or "conditions" (VList []) rule) ] ]
  else rule_groups.

Definition eval_rule (card_data rule : value) : result outcome :=
  do enabled <- attr_get rule "enabled" (VBool true);
  if negb (truthy enabled) then Ok Disabled
  else
    match rule with
    | VDict r =>
        let rule_groups := normalized_groups r in
        if negb (truthy rule_groups) then Ok NoGroups
        else
          do rule_top_logic <- upper_of (get_or "logic" (VStr "OR") r);
          do groups <- py_iter rule_groups;
          do group_results <- for_each (eval_group card_data) groups;
          let is_rule_match :=
            if String.eqb rule_top_logic "AND" then all group_results
            else any group_results in
          if is_rule_match then
            do actions <- py_iter (get_or "actions" (VList []) r);
            Ok (Matched actions (truthy (get "stop_on_match" r)))
          else Ok NoMatch
    | _ => Raise AttributeError
    end.

(** The loop over the rules; [actions] is [plan['actions']]. *)
Fixpoint run_rules (card_data : value) (rules : list value)
    (actions : list value) : result (list value) :=
  match rules with
  | [] => Ok actions
  | rule :: rest =>
      do o <- eval_rule card_data rule;
      match o with
      | Matched acts stop =>
          if stop then Ok (actions ++ acts)
          else run_rules card_data rest (actions ++ acts)
      | _ => run_rules card_data rest actions
      end
  end.

(** The objects [evaluate] is handed, which it may change in place. *)
Record store : Type := { card_data : value; ruleset : value }.

(** The plan, [{"actions": [...]}]. *)
Record plan : Type := { actions : list value }.

(** [" ".join([str(e.get('content', '')) + " " + str(e.get('comment', ''))
               for e in entries if isinstance(e, dict)])] *)
Definition combined_wi (entries : list value) : string :=
  PyStr.join " "
    (map (fun e => py_str (get_or "content" (VStr EmptyString) e) +:+ " "
                   +:+ py_str (get_or "comment" (VStr EmptyString) e))
       (dicts_of entries)).

(** The preprocessing step: the card after it. *)
Definition precompute (card : value) : result value :=
  do book <- attr_get card "character_book" VNone;
  if truthy book then
    do entries0 <- attr_get book "entries" (VList []);
    let entries :=
      match entries0 with VDict d => VList (values d) | _ => entries0 end in
    match entries, card with
    | VList l, VDict d =>
        Ok (VDict (dict_set "character_book_content" (VStr (combined_wi l)) d))
    | _, _ => Ok card
    end
  else Ok card.

(** [evaluate]: the store it leaves, and the plan or the exception. *)
Definition evaluate (st : store) : store * result plan :=
  match precompute (card_data st) with
  | Raise e => (st, Raise e)
  | Ok card' =>
      let st' := {| card_data := card'; ruleset := ruleset st |} in
      (st',
       do rules_obj <- attr_get (ruleset st') "rules" (VList []);
       do rules <- py_iter rules_obj;
       do acts <- run_rules card' rules [];
       Ok {| actions := acts |})
  end.

End WithRuntime.

End Engine.

(* ================================================================= *)
(** ** core/automation/executor.py *)

(** [core.services.card_service]: the two calls of the executor, acting
    on a library state [world]. *)
Class CardService (world : Type) : Type := {
  (** [modify_card_attributes_internal(id, add, remove, fav)] *)
  modify_card_attributes_internal :
    world -> string -> list string -> list string -> option bool -> world * bool;
  (** [move_card_internal(id, target)], giving [(success, new_id, msg)] *)
  move_card_internal :
    world -> string -> string -> world * (bool * string * string)
}.

Module Executor.

(** The plan of the docstring:
    [{'move': path or None, 'add_tags': set(), 'remove_tags': set(),
      'favorite': bool or None}]. *)
Record plan : Type := {
  move : option string;
  add_tags : list string;
  remove_tags : list string;
  favorite : option bool
}.

Record summary : Type := {
  moved_to : option string;
  tags_added : list string;
  tags_removed : list string;
  fav_changed : bool;
  final_id : string
}.

Definition nonempty {A : Type} (l : list A) : bool :=
  match l with [] => false | _ => true end.

Section WithService.
Context {world : Type} {CS : CardService world}.

(** Step 1 of [apply_plan]: the world after it and the three
    result fields it sets. *)
Definition apply_attributes (w : world) (current_id : string) (p : plan)
    : world * (list string * list string * bool) :=
  if nonempty (add_tags p) || nonempty (remove_tags p)
     || bool_decide (favorite p <> None) then
    let '(w1, success) :=
      modify_card_attributes_internal w current_id
        (add_tags p) (remove_tags p) (favorite p) in
    if success
    then (w1, (add_tags p, remove_tags p, bool_decide (favorite p <> None)))
    else (w1, ([], [], false))
  else (w, ([], [], false)).

Definition apply_plan (w : world) (card_id : string) (p : plan)
    : world * summary :=
  let current_id := card_id in
  let '(w1, (added, removed, fav)) := apply_attributes w current_id p in
  match move p with
  | Some target_folder =>
      let '(w2, (success, new_id, msg)) :=
        move_card_internal w1 current_id target_folder in
      if success then
        (w2, {| moved_to := Some target_folder; tags_added := added;
                tags_removed := removed; fav_changed := fav;
                final_id := new_id |})
      else
        (w2, {| moved_to := None; tags_added := added;
                tags_removed := removed; fav_changed := fav;
                final_id := current_id |})
  | None =>
      (w1, {| moved_to := None; tags_added := added;
              tags_removed := removed; fav_changed := fav;
              final_id := current_id |})
  end.

End WithService.

End Executor.

(* ================================================================= *)
(** ** core/automation/manager.py *)

(** The two string methods of the rule store that are taken as given,
    as [float] and [re.search] are for the engine: they act on all of
    Unicode ([str.lower] folds every cased letter, [str.strip] removes
    every character that [str.isspace] accepts). *)
Class Text : Type := {
  (** [s.lower()] *)
  str_lower : string -> string;
  (** [s.strip()] *)
  str_strip : string -> string
}.

Module Manager.
Import Py Builtins.

(** The rules directory as [save_ruleset] leaves it: under each id
    ([<id>.json]) the document that was handed to [json.dump], and the
    [active_automation_ruleset] entry of the configuration.  The text
    of the files and the reading of it are not part of the model. *)
Record store : Type := {
  files : gmap string value;
  active : option string
}.

Definition illegal (c : ascii) : bool :=
  existsb (Ascii.eqb c)
    [ PyStr.backslash; "/"; "*"; "?"; ":"; PyStr.dquote; "<"; ">"; "|" ]%char.

Section WithText.
Context {TX : Text}.

(** [_sanitize_filename] *)
Definition _sanitize_filename (name : value) : string :=
  let name' := PyStr.replace_class illegal "_"%char (str_strip (py_str name)) in
  if String.eqb name' EmptyString then "Untitled_Ruleset" else name'.




End WithText.

End Manager.

(* ================================================================= *)
(** ** Notions the statements below are phrased with *)

Module Spec.
Import Py Builtins.

(** Two documents with the same content, whatever the order of the
    keys of their mappings. *)
Fixpoint same_up_to_key_order (a b : value) : bool :=
  match a, b with
  | VNone, VNone => true
  | VBool x, VBool y => Bool.eqb x y
  | VInt x, VInt y => (x =? y)
  | VFloat x, VFloat y => String.eqb x y
  | VStr x, VStr y => String.eqb x y
  | VList l1, VList l2 =>
      (fix each (l1 l2 : list value) : bool :=
         match l1, l2 with
         | [], [] => true
         | x :: r1, y :: r2 => same_up_to_key_order x y && each r1 r2
         | _, _ => false
         end) l1 l2
  | VDict d1, VDict d2 =>
      (length d1 =? length d2)%nat
      && (fix each (d : dict) : bool :=
            match d with
            | [] => true
            | (k, x) :: r =>
                match dict_get k d2 with
                | Some y => same_up_to_key_order x y
                | None => false
                end && each r
            end) d1
  | _, _ => false
  end.

(** The shape [normalize_card_v3] leaves behind: a [data] mapping, the
    version header, nothing left to copy into [data], no root copy of
    [character_book] or [extensions], no header key inside [data]. *)
Definition canonical (root : dict) : Prop :=
  exists block,
    dict_get "data" root = Some (VDict block)
    /\ dict_get "spec" root = Some (VStr "chara_card_v3")
    /\ dict_get "spec_version" root = Some (VStr "3.0")
    /\ (forall f, In f Data.core_fields ->
          dict_mem f block = true \/ Data.root_val root f = VNone)
    /\ dict_get "character_book" root = None
    /\ dict_get "extensions" root = None
    /\ (forall k, In k ["spec"; "spec_version"; "data"] ->
          dict_get k block = None).

(** [wf] on the entries of a mapping, as a proposition. *)
Definition wf_dict (d : dict) : Prop :=
  NoDup (keys d) /\ Forall (fun p => wf p.2 = true) d.

(** Root keys that the later steps of [normalize_card_v3] leave alone. *)
Definition kept (k : string) : bool :=
  negb (Data.str_in k ["data"; "character_book"; "extensions"]).

(** A document the fingerprinter treats as a card: a mapping with a
    [name] or a [data] key. *)
Definition is_card (v : value) : bool :=
  match v with
  | VDict d => dict_mem "name" d || dict_mem "data" d
  | _ => false
  end.

(** The logical fields of a document: the [data] mapping of its
    canonical form. *)
Definition logical_fields (v : value) : value :=
  match Data.normalize_card_v3 v with
  | VDict root => get "data" root
  | _ => VNone
  end.

(** How deep the lists and mappings of a document are nested. *)
Fixpoint depth (v : value) : nat :=
  match v with
  | VList l =>
      S ((fix go (l : list value) : nat :=
            match l with
            | [] => O
            | x :: r => Nat.max (depth x) (go r)
            end) l)
  | VDict d =>
      S ((fix go (d : dict) : nat :=
            match d with
            | [] => O
            | (_, x) :: r => Nat.max (depth x) (go r)
            end) d)
  | _ => O
  end.

(** An interpreter for the worked examples, whose text is ASCII: it
    gives up on a nesting deeper than a hundred levels. *)
Definition example_interpreter : Hash.Interpreter :=
  {| Hash.serializes := fun v => (depth v <=? 100)%nat |}.

(** A legacy card, the same card in the versioned layout with the
    fields under [data] only, and the versioned layout that keeps the
    root-level copies (keys in another order). *)
Definition legacy_card : value :=
  VDict [ ("name", VStr "Foo"); ("description", VStr "D") ].

Definition versioned_card : value :=
  VDict [ ("spec", VStr "chara_card_v3"); ("spec_version", VStr "3.0");
          ("data", VDict [ ("name", VStr "Foo"); ("description", VStr "D") ]) ].

Definition versioned_card_with_copies : value :=
  VDict [ ("spec_version", VStr "3.0"); ("description", VStr "D");
          ("data", VDict [ ("description", VStr "D"); ("name", VStr "Foo") ]);
          ("name", VStr "Foo"); ("spec", VStr "chara_card_v3") ].

(** The file signature in the words of the specification: the size
    is part of the hashed bytes only for a file above 128 KiB. *)
Definition signature_as_specified (bytes : list Byte.byte) : string :=
  let size := length bytes in
  if (Hash.SAMPLE * 2 <? size)%nat then
    Md5.hexdigest (Md5.encode (pretty (Z.of_nat size))
                   ++ firstn Hash.SAMPLE bytes
                   ++ skipn (size - Hash.SAMPLE) bytes)
  else Md5.hexdigest bytes.

(** The bytes the code hashes for a file. *)
Definition signed_bytes (bytes : list Byte.byte) : list Byte.byte :=
  let size := length bytes in
  Md5.encode (pretty (Z.of_nat size))
  ++ (if (Hash.SAMPLE * 2 <? size)%nat
      then firstn Hash.SAMPLE bytes ++ skipn (size - Hash.SAMPLE) bytes
      else bytes).

(** [eq] on a sequence in the words of the specification: the sorted
    lower-cased coercions of the elements against the sorted
    lower-cased pieces of the comma-separated target. *)
Definition eq_as_specified (items : list value) (target : string) : bool :=
  bool_decide
    (PyStr.sorted (map (fun v => PyStr.lower (py_str v)) items)
     = PyStr.sorted (map (fun t => PyStr.lower (PyStr.strip t))
                       (PyStr.split ","%char target))).



(** Worked example of the rule loop: a card, a condition that holds
    on it, a rule A that stops on match and a rule B that matches too. *)
Definition example_card : value :=
  VDict [ ("name", VStr "Foo"); ("tags", VList [VStr "a"; VStr "b"]) ].

Definition tags_condition : value :=
  VDict [ ("field", VStr "tags"); ("operator", VStr "eq");
          ("value", VStr "b,a"); ("case_sensitive", VBool false) ].

Definition tag_action (t : string) : value :=
  VDict [ ("type", VStr "add_tag"); ("tag", VStr t) ].


Definition rule_B : dict :=
  [ ("name", VStr "B");
    ("conditions", VList [tags_condition]);
    ("actions", VList [tag_action "from-B"]) ].

(** A rule that would match, with [enabled] present and [null]. *)
Definition rule_enabled_null : dict :=
  ("enabled", VNone) :: rule_B.

(** A rule without groups or conditions, and a group without
    conditions, each with everything else that could make it fire. *)
Definition rule_without_groups : dict :=
  [ ("name", VStr "empty"); ("logic", VStr "AND"); ("groups", VList []);
    ("actions", VList [tag_action "never"]); ("stop_on_match", VBool true) ].

Definition group_without_conditions : dict :=
  [ ("logic", VStr "and"); ("conditions", VList []) ].

(** A runtime for worked examples: [float] reads integers and
    booleans only, and no pattern compiles. *)
Definition example_runtime : Runtime :=
  {| number := Z;
     py_float := fun v =>
       match v with
       | VInt z => Some z
       | VBool b => Some (if b then 1 else 0)
       | _ => None
       end;
     number_ltb := Z.ltb;
     re_search := fun _ _ _ => None |}.

(** A card service for worked examples: the world is the log of the
    calls made; attribute changes succeed, a move to ["locked"] fails. *)
Inductive call : Type :=
| Modify (id : string) (add remove : list string) (fav : option bool)
| Move (id : string) (target : string).



(** The two string methods on ASCII text, for the worked examples. *)
Definition ascii_text : Text :=
  {| str_lower := PyStr.lower; str_strip := PyStr.strip |}.




End Spec.

(* ================================================================= *)
(** ** Further functions of the sources *)

Module DataMore.
Import Py Builtins.

(** [get_wi_meta]: the flag and the name of the embedded world info. *)
Definition get_wi_meta (data_block : value) : result (Z * value) :=
  do cb <- attr_get data_block "character_book" VNone;
  if truthy cb then
    match cb with
    | VList _ => Ok (1, VStr "Embedded World Info")
    | VDict book =>
        let entries := get "entries" book in
        let has_wi :=
          match entries with
          | VList (_ :: _) => 1
          | VDict (_ :: _) => 1
          | _ => 0
          end in
        if has_wi =? 1 then Ok (has_wi, get_or "name" (VStr "World Info") book)
        else Ok (has_wi, VStr EmptyString)
    | _ => Ok (0, VStr EmptyString)
    end
  else Ok (0, VStr EmptyString).

(** The [data] block [normalize_card_v3] starts from: the one the
    document brings, or the copy of its root without the header keys. *)
Definition initial_block (root : dict) : dict :=
  match dict_get "data" root with
  | Some (VDict d) => d
  | _ => Data.strip_root_keys root
  end.

(** The [data] block of a document, [None] when there is none. *)
Definition data_block_of (v : value) : option dict :=
  match v with
  | VDict root =>
      match dict_get "data" root with
      | Some (VDict d) => Some d
      | _ => None
      end
  | _ => None
  end.

(** Two mappings that bind the same keys to values with the same
    sorted form. *)
Definition same_bindings (d1 d2 : dict) : Prop :=
  forall k, Data.deterministic_sort <$> dict_get k d1
            = Data.deterministic_sort <$> dict_get k d2.

(** [normalize_card_v3] in two parts: step 1, which settles the root
    and the block to work on, and the steps after it. *)
Definition normalize_start (root0 : dict) : dict * dict :=
  match dict_get "data" root0 with
  | Some (VDict d) => (root0, d)
  | _ =>
      let copy := Data.strip_root_keys root0 in
      (dict_set "data" (VDict copy) root0, copy)
  end.

Definition normalize_finish (st : dict * dict) : value :=
  let '(root1, block0) := st in
  let root2 :=
    dict_set "spec_version" (VStr "3.0")
      (dict_set "spec" (VStr "chara_card_v3") root1) in
  let block1 := fold_left (Data.sync_field root2) Data.core_fields block0 in
  let '(root3, block2) := Data.relocate "character_book" (root2, block1) in
  let '(root4, block3) := Data.relocate "extensions" (root3, block2) in
  let block4 := Data.strip_root_keys block3 in
  VDict (dict_set "data" (VDict block4) root4).

(** Worked examples: one document under two key orders, a legacy card
    with the old comment field and a world book. *)
Definition doc_in_order : value :=
  VDict [ ("name", VStr "Foo");
          ("zeta", VInt 1);
          ("alpha", VDict [ ("b", VInt 2); ("a", VList [VDict [("y", VNone); ("x", VNone)]]) ]) ].

Definition doc_shuffled : value :=
  VDict [ ("alpha", VDict [ ("a", VList [VDict [("x", VNone); ("y", VNone)]]); ("b", VInt 2) ]);
          ("zeta", VInt 1);
          ("name", VStr "Foo") ].

Definition legacy_with_book : dict :=
  [ ("name", VStr "Foo");
    ("creatorcomment", VStr "hello");
    ("character_book",
     VDict [ ("name", VStr "Lore");
             ("entries", VList [ VDict [("content", VStr "c1"); ("comment", VStr "n1")] ]) ]) ].

Definition versioned_with_root_book : dict :=
  [ ("spec", VStr "chara_card_v2");
    ("data", VDict [ ("name", VStr "Inner"); ("tags", VList []) ]);
    ("name", VStr "Outer");
    ("avatar", VStr "a.png");
    ("character_book", VNone) ].

End DataMore.

Module EngineMore.
Import Py Builtins.

(** A list whose elements are all strings. *)
Definition is_str_list (v : value) : bool :=
  match v with
  | VList l => forallb (fun x => match x with VStr _ => true | _ => false end) l
  | _ => false
  end.

(** An item of [tavern_helper] that the scan takes for the scripts
    pair: a list of two or more elements whose first is ["scripts"]. *)
Definition is_scripts_pair (item : value) : bool :=
  match item with
  | VList (label :: _ :: _) => eq_str label "scripts"
  | _ => false
  end.

(** The six field names that are resolved to script or world-info
    collections. *)
Definition collection_fields : list string :=
  [ "wi_name"; "wi_content"; "regex_name"; "regex_content";
    "st_script_name"; "st_script_content" ].

(** Worked examples. *)
Definition helper_card : dict :=
  [ ("extensions",
     VDict [ ("tavern_helper",
              VList [ VList [VStr "variables"; VDict []];
                      VStr "noise";
                      VList [ VStr "scripts";
                              VList [ VDict [("name", VStr "s1"); ("content", VStr "c1")];
                                      VInt 3;
                                      VDict [("name", VStr "s2")] ] ] ]) ]) ].

Definition book_card : dict :=
  [ ("name", VStr "Foo");
    ("character_book",
     VDict [ ("entries",
              VDict [ ("0", VDict [("content", VStr "c0"); ("comment", VStr "n0")]);
                      ("1", VDict [("content", VStr "c1")]) ]) ]) ].

Definition legacy_rule : dict :=
  [ ("name", VStr "legacy"); ("logic", VStr "and");
    ("conditions", VList [Spec.tags_condition]);
    ("actions", VList [Spec.tag_action "legacy"]) ].

Definition and_rule_with_empty_group : dict :=
  [ ("logic", VStr "and");
    ("groups", VList [ VDict [("conditions", VList [Spec.tags_condition])];
                       VDict [("conditions", VList [])] ]);
    ("actions", VList [Spec.tag_action "never"]) ].

End EngineMore.

Module HashMore.
Import Py Builtins.

(** The first step of the [try] block of [_calculate_data_hash]: the
    document that goes into the sort, or the [TypeError] of the
    membership test. *)
Definition prepared (data : value) : result value :=
  do has_name <- str_in_value "name" data;
  do is_card <- (if has_name then Ok true else str_in_value "data" data);
  Ok (if is_card then Data.normalize_card_v3 data else data).

(** A file of [2 * SAMPLE + 1] bytes that is zero but for its middle
    byte. *)
Definition padded_file (middle : Byte.byte) : list Byte.byte :=
  repeat Byte.x00 Hash.SAMPLE ++ [middle] ++ repeat Byte.x00 Hash.SAMPLE.

End HashMore.

Module ExecutorMore.

(** A card service that records the calls made to it, on top of any
    card service. *)
Definition traced {world : Type} (CS : CardService world)
    : CardService (world * list Spec.call) :=
  {| modify_card_attributes_internal := fun st id add remove fav =>
       let '(w', ok) :=
         @modify_card_attributes_internal world CS st.1 id add remove fav in
       ((w', st.2 ++ [Spec.Modify id add remove fav]), ok);
     move_card_internal := fun st id target =>
       let '(w', res) := @move_card_internal world CS st.1 id target in
       ((w', st.2 ++ [Spec.Move id target]), res) |}.

(** The calls a plan asks for. *)
Definition calls_of (card_id : string) (p : Executor.plan) : list Spec.call :=
  (if Executor.nonempty (Executor.add_tags p)
      || Executor.nonempty (Executor.remove_tags p)
      || bool_decide (Executor.favorite p <> None)
   then [ Spec.Modify card_id (Executor.add_tags p) (Executor.remove_tags p)
            (Executor.favorite p) ]
   else [])
  ++ match Executor.move p with
     | Some target => [ Spec.Move card_id target ]
     | None => []
     end.

End ExecutorMore.

Module ManagerMore.
Import Py Builtins.


(** Every character of a string passes a test. *)
Fixpoint all_chars (p : ascii -> bool) (s : string) : bool :=
  match s with
  | EmptyString => true
  | String c r => p c && all_chars p r
  end.

(** A string that does not begin with a blank. *)
Definition starts_clean (s : string) : bool :=
  match s with
  | EmptyString => true
  | String c _ => negb (PyStr.is_space c)
  end.



End ManagerMore.

(* ================================================================= *)
(** * Properties *)

Import Py.

(** ** Dictionaries *)

Section DictFacts.
Implicit Types (k : string) (v : value) (d : dict).

Lemma dict_get_set_eq k v d : dict_get k (dict_set k v d) = Some v.
Proof.
  induction d as [|[k' v'] d IH]; simpl.
  - by rewrite String.eqb_refl.
  - destruct (String.eqb_spec k k') as [->|Hne]; simpl.
    + by rewrite String.eqb_refl.
    + destruct (String.eqb_spec k k'); [done | exact IH].
Qed.

Lemma dict_get_set_ne k k' v d :
  k <> k' -> dict_get k (dict_set k' v d) = dict_get k d.
Proof.
  intros Hne. induction d as [|[k2 v2] d IH]; simpl.
  - destruct (String.eqb_spec k k'); [done | reflexivity].
  - destruct (String.eqb_spec k' k2) as [->|Hne2]; simpl.
    + destruct (String.eqb_spec k k2); [done | reflexivity].
    + destruct (String.eqb_spec k k2); [reflexivity | exact IH].
Qed.

Lemma dict_get_del_eq k d : dict_get k (dict_del k d) = None.
Proof.
  induction d as [|[k' v'] d IH]; simpl; [done|].
  destruct (String.eqb_spec k k') as [->|Hne]; [exact IH|].
  simpl. destruct (String.eqb_spec k k'); [done | exact IH].
Qed.

Lemma dict_get_del_ne k k' d :
  k <> k' -> dict_get k (dict_del k' d) = dict_get k d.
Proof.
  intros Hne. induction d as [|[k2 v2] d IH]; simpl; [done|].
  destruct (String.eqb_spec k' k2) as [->|Hne2]; simpl.
  - destruct (String.eqb_spec k k2); [done | exact IH].
  - destruct (String.eqb_spec k k2); [reflexivity | exact IH].
Qed.

Lemma dict_set_id k v d : dict_get k d = Some v -> dict_set k v d = d.
Proof.
  induction d as [|[k' v'] d IH]; simpl; [done|].
  destruct (String.eqb_spec k k') as [->|Hne]; intros H.
  - by inversion H.
  - by rewrite IH.
Qed.

Lemma dict_set_set k v v' d :
  dict_set k v (dict_set k v' d) = dict_set k v d.
Proof.
  induction d as [|[k2 v2] d IH]; simpl.
  - by rewrite String.eqb_refl.
  - destruct (String.eqb_spec k k2) as [->|Hne]; simpl.
    + by rewrite String.eqb_refl.
    + destruct (String.eqb_spec k k2); [done | by rewrite IH].
Qed.

Lemma dict_del_absent k d : dict_get k d = None -> dict_del k d = d.
Proof.
  induction d as [|[k' v'] d IH]; simpl; [done|].
  destruct (String.eqb_spec k k'); [done|]. intros H. by rewrite IH.
Qed.

Lemma dict_mem_set_eq k v d : dict_mem k (dict_set k v d) = true.
Proof. unfold dict_mem. by rewrite dict_get_set_eq. Qed.

Lemma dict_mem_set_ne k k' v d :
  k <> k' -> dict_mem k (dict_set k' v d) = dict_mem k d.
Proof. intros. unfold dict_mem. by rewrite dict_get_set_ne. Qed.

Lemma dict_mem_del_ne k k' d :
  k <> k' -> dict_mem k (dict_del k' d) = dict_mem k d.
Proof. intros. unfold dict_mem. by rewrite dict_get_del_ne. Qed.

Lemma dict_mem_set_mono k k' v d :
  dict_mem k d = true -> dict_mem k (dict_set k' v d) = true.
Proof.
  intros H. destruct (decide (k = k')) as [->|Hne].
  - apply dict_mem_set_eq.
  - by rewrite dict_mem_set_ne.
Qed.

End DictFacts.

(** ** Canonicalizer *)

Section Canonicalizer.
Import Data Spec.
Implicit Types (k f : string) (v : value) (root block : dict).

Lemma strip_root_keys_del block :
  strip_root_keys block
  = dict_del "data" (dict_del "spec_version" (dict_del "spec" block)).
Proof.
  unfold strip_root_keys. simpl.
  assert (Hstep : forall k d, (if dict_mem k d then dict_del k d else d)
                              = dict_del k d).
  { intros k d. unfold dict_mem.
    destruct (dict_get k d) eqn:E; [done|]. by rewrite dict_del_absent. }
  by rewrite !Hstep.
Qed.

Lemma strip_root_keys_get k block :
  In k ["spec"; "spec_version"; "data"] ->
  dict_get k (strip_root_keys block) = None.
Proof.
  rewrite strip_root_keys_del. simpl.
  intros [<-|[<-|[<-|[]]]].
  - rewrite !dict_get_del_ne by done. apply dict_get_del_eq.
  - rewrite dict_get_del_ne by done. apply dict_get_del_eq.
  - apply dict_get_del_eq.
Qed.

Lemma strip_root_keys_other k block :
  ~ In k ["spec"; "spec_version"; "data"] ->
  dict_get k (strip_root_keys block) = dict_get k block.
Proof.
  rewrite strip_root_keys_del. simpl. intros Hk.
  rewrite !dict_get_del_ne; [done | | |]; intros ->; tauto.
Qed.

Lemma strip_root_keys_fixed block :
  (forall k, In k ["spec"; "spec_version"; "data"] -> dict_get k block = None) ->
  strip_root_keys block = block.
Proof.
  intros H. rewrite strip_root_keys_del.
  rewrite (dict_del_absent "spec") by (apply H; simpl; tauto).
  rewrite (dict_del_absent "spec_version") by (apply H; simpl; tauto).
  apply dict_del_absent, H. simpl; tauto.
Qed.

Lemma sync_field_mono root block f k :
  dict_mem k block = true -> dict_mem k (sync_field root block f) = true.
Proof.
  intros H. unfold sync_field.
  destruct (dict_mem f block); [done|].
  destruct (root_val root f); try done; by apply dict_mem_set_mono.
Qed.

Lemma sync_fields_mono root fs block k :
  dict_mem k block = true ->
  dict_mem k (fold_left (sync_field root) fs block) = true.
Proof.
  revert block. induction fs as [|f fs IH]; intros block H; simpl; [done|].
  apply IH. by apply sync_field_mono.
Qed.

Lemma sync_field_covers root block f :
  root_val root f <> VNone -> dict_mem f (sync_field root block f) = true.
Proof.
  intros H. unfold sync_field.
  destruct (dict_mem f block) eqn:E; [done|].
  destruct (root_val root f); try done; apply dict_mem_set_eq.
Qed.

Lemma sync_fields_cover root fs block f :
  In f fs -> root_val root f <> VNone ->
  dict_mem f (fold_left (sync_field root) fs block) = true.
Proof.
  revert block. induction fs as [|g fs IH]; intros block Hin Hv; [done|].
  simpl. destruct Hin as [->|Hin].
  - apply sync_fields_mono. by apply sync_field_covers.
  - by apply IH.
Qed.

Lemma sync_fields_fixed root fs block :
  (forall f, In f fs -> dict_mem f block = true \/ root_val root f = VNone) ->
  fold_left (sync_field root) fs block = block.
Proof.
  induction fs as [|g fs IH]; intros H; simpl; [done|].
  assert (Hg : sync_field root block g = block).
  { unfold sync_field. destruct (H g) as [->| ->]; simpl; auto.
    by destruct (dict_mem g block). }
  rewrite Hg. apply IH. intros f Hf. apply H. by right.
Qed.

Lemma relocate_root k root block :
  (relocate k (root, block)).1 = dict_del k root.
Proof.
  unfold relocate. destruct (dict_get k root) eqn:E; simpl; [done|].
  by rewrite dict_del_absent.
Qed.

Lemma relocate_mono k root block k' :
  dict_mem k' block = true -> dict_mem k' (relocate k (root, block)).2 = true.
Proof.
  intros H. unfold relocate. destruct (dict_get k root); simpl; [|done].
  destruct (dict_mem k block); [done|]. by apply dict_mem_set_mono.
Qed.

Lemma relocate_absent k root block :
  dict_get k root = None -> relocate k (root, block) = (root, block).
Proof. intros H. unfold relocate. by rewrite H. Qed.

(** A canonical document is left as it is. *)
Lemma normalize_canonical_fixed root :
  canonical root -> normalize_card_v3 (VDict root) = VDict root.
Proof.
  intros (block & Hdata & Hspec & Hver & Hcore & Hbook & Hext & Hclean).
  unfold normalize_card_v3. rewrite Hdata.
  rewrite (dict_set_id "spec") by done.
  rewrite (dict_set_id "spec_version") by done.
  rewrite sync_fields_fixed by done.
  rewrite !relocate_absent by done.
  rewrite strip_root_keys_fixed by done.
  by rewrite dict_set_id.
Qed.

Lemma kept_ne k : kept k = true ->
  k <> "data" /\ k <> "character_book" /\ k <> "extensions".
Proof.
  unfold kept, str_in. simpl. rewrite !orb_false_r, !negb_orb, !andb_true_iff.
  intros [H1 [H2 H3]].
  repeat split; intros ->; simpl in *; discriminate.
Qed.

(** The output of [normalize_card_v3] is canonical. *)
Lemma normalize_is_canonical root0 :
  exists root, normalize_card_v3 (VDict root0) = VDict root /\ canonical root.
Proof.
  unfold normalize_card_v3.
  set (start := match dict_get "data" root0 with
                | Some (VDict d) => (root0, d)
                | _ => (dict_set "data" (VDict (strip_root_keys root0)) root0,
                        strip_root_keys root0)
                end).
  assert (Hstart : start = start) by done.
  destruct start as [root1 block0] in Hstart at 2 |- *. clear Hstart start.
  set (root2 := dict_set "spec_version" (VStr "3.0")
                  (dict_set "spec" (VStr "chara_card_v3") root1)).
  set (block1 := fold_left (sync_field root2) core_fields block0).
  destruct (relocate "character_book" (root2, block1)) as [root3 block2] eqn:E3.
  destruct (relocate "extensions" (root3, block2)) as [root4 block3] eqn:E4.
  assert (Hr3 : root3 = dict_del "character_book" root2).
  { rewrite <- relocate_root with (block := block1). by rewrite E3. }
  assert (Hr4 : root4 = dict_del "extensions" root3).
  { rewrite <- relocate_root with (block := block2). by rewrite E4. }
  assert (Hb3 : forall k, dict_mem k block1 = true -> dict_mem k block3 = true).
  { intros k Hk.
    pose proof (relocate_mono "character_book" root2 block1 k Hk) as H2.
    rewrite E3 in H2. simpl in H2.
    pose proof (relocate_mono "extensions" root3 block2 k H2) as H3.
    by rewrite E4 in H3. }
  eexists. split; [reflexivity|].
  assert (Hkept : forall k, kept k = true ->
            dict_get k (dict_set "data" (VDict (strip_root_keys block3)) root4)
            = dict_get k root2).
  { intros k Hk. apply kept_ne in Hk as (H1 & H2 & H3).
    rewrite dict_get_set_ne by done. subst root4 root3.
    by rewrite !dict_get_del_ne. }
  assert (Hbook : dict_get "character_book"
                    (dict_set "data" (VDict (strip_root_keys block3)) root4) = None).
  { rewrite dict_get_set_ne by done. subst root4 root3.
    rewrite dict_get_del_ne by done. apply dict_get_del_eq. }
  assert (Hext : dict_get "extensions"
                   (dict_set "data" (VDict (strip_root_keys block3)) root4) = None).
  { rewrite dict_get_set_ne by done. subst root4. apply dict_get_del_eq. }
  exists (strip_root_keys block3). repeat split.
  - apply dict_get_set_eq.
  - rewrite Hkept by done. unfold root2.
    rewrite dict_get_set_ne by done. apply dict_get_set_eq.
  - rewrite Hkept by done. unfold root2. apply dict_get_set_eq.
  - intros f Hf.
    assert (Hcase :
      (kept (root_key_of f) && kept f = true)
      \/ (root_key_of f = f /\ (f = "character_book" \/ f = "extensions"))).
    { simpl in Hf.
      repeat (destruct Hf as [<-|Hf]; [vm_compute; tauto|]). destruct Hf. }
    assert (Hmem : dict_mem f block1 = true ->
                   dict_mem f (strip_root_keys block3) = true).
    { intros Hm. apply Hb3 in Hm. unfold dict_mem in *.
      rewrite strip_root_keys_other; [done|].
      simpl in Hf. intros Hk. simpl in Hk.
      repeat (destruct Hf as [<-|Hf];
              [repeat (destruct Hk as [Hk|Hk]; [discriminate Hk|]); destruct Hk|]).
      destruct Hf. }
    destruct Hcase as [Hk | [Hrk Hk]].
    + apply andb_true_iff in Hk as [Hk1 Hk2].
      assert (root_val root2 f = VNone \/ root_val root2 f <> VNone)
        as [Hnone|Hsome] by (destruct (root_val root2 f); auto; by right).
      * right. unfold root_val, get, get_or in *.
        by rewrite !Hkept.
      * left. apply Hmem. by apply sync_fields_cover.
    + right. unfold root_val, get, get_or. rewrite Hrk.
      destruct Hk as [-> | ->]; by rewrite ?Hbook, ?Hext.
  - done.
  - done.
  - intros k Hk. by apply strip_root_keys_get.
Qed.

(** C3.  Canonicalization is idempotent: [normalize_card_v3] applied
    to its own output returns that output, for every document. *)
Theorem normalize_card_v3_idempotent (d : value) :
  normalize_card_v3 (normalize_card_v3 d) = normalize_card_v3 d.
Proof.
  destruct d as [| | | | | |root0]; try reflexivity.
  destruct (normalize_is_canonical root0) as (root & -> & Hcanon).
  by apply normalize_canonical_fixed.
Qed.

End Canonicalizer.

(** ** Structural induction on values *)

Lemma value_ind (P : value -> Prop) :
  P VNone ->
  (forall b, P (VBool b)) ->
  (forall z, P (VInt z)) ->
  (forall r, P (VFloat r)) ->
  (forall s, P (VStr s)) ->
  (forall l, Forall P l -> P (VList l)) ->
  (forall d, Forall (fun p => P p.2) d -> P (VDict d)) ->
  forall v, P v.
Proof.
  intros HN HB HI HF HS HL HD.
  fix IH 1. intros [| b | z | r | s | l | d].
  - exact HN.
  - apply HB.
  - apply HI.
  - apply HF.
  - apply HS.
  - apply HL. induction l as [|x l IHl]; constructor; [apply IH | exact IHl].
  - apply HD. induction d as [|[k x] d IHd]; constructor; [apply IH | exact IHd].
Qed.

(** ** Well-formed documents *)

Section WellFormed.
Import Data Spec.
Implicit Types (k f : string) (v : value) (d root block : dict).

Lemma wf_VDict d : wf (VDict d) = true <-> wf_dict d.
Proof.
  unfold wf_dict, keys. simpl. rewrite andb_true_iff, bool_decide_eq_true.
  apply and_iff_compat_l.
  induction d as [|[k x] d IH]; simpl.
  - split; [constructor | done].
  - rewrite andb_true_iff, IH. split.
    + intros [? ?]. by constructor.
    + intros H. by inversion H.
Qed.

Lemma wf_VList l : wf (VList l) = true <-> Forall (fun x => wf x = true) l.
Proof. simpl. rewrite forallb_forall, List.Forall_forall. reflexivity. Qed.

Lemma dict_get_In k v d : dict_get k d = Some v -> In (k, v) d.
Proof.
  induction d as [|[k' v'] d IH]; simpl; [done|].
  destruct (String.eqb_spec k k') as [->|Hne]; intros H.
  - left. by inversion H.
  - right. by apply IH.
Qed.

Lemma dict_get_None k d : dict_get k d = None <-> ~ In k (keys d).
Proof.
  induction d as [|[k' v'] d IH]; simpl; [tauto|].
  destruct (String.eqb_spec k k') as [->|Hne].
  - split; [done | tauto].
  - rewrite IH. split; [intros H [?|?]; [congruence | tauto] | tauto].
Qed.

Lemma dict_get_NoDup k v d :
  NoDup (keys d) -> In (k, v) d -> dict_get k d = Some v.
Proof.
  induction d as [|[k' v'] d IH]; simpl; [done|].
  intros Hnd Hin. apply NoDup_cons in Hnd as [Hk Hnd].
  destruct Hin as [Heq|Hin].
  - inversion Heq; subst. by rewrite String.eqb_refl.
  - destruct (String.eqb_spec k k') as [->|Hne]; [|by apply IH].
    exfalso. apply Hk. apply list_elem_of_In.
    change (In k' (keys d)). apply in_map_iff. by exists (k', v).
Qed.

Lemma wf_dict_get k v d : wf_dict d -> dict_get k d = Some v -> wf v = true.
Proof.
  intros [_ Hall] Hget. apply dict_get_In in Hget.
  rewrite List.Forall_forall in Hall. by apply (Hall (k, v)).
Qed.

Lemma keys_dict_set k v d :
  keys (dict_set k v d) = if dict_mem k d then keys d else keys d ++ [k].
Proof.
  unfold dict_mem. induction d as [|[k' v'] d IH]; simpl; [done|].
  destruct (String.eqb_spec k k') as [->|Hne]; simpl; [done|].
  rewrite IH. by destruct (dict_get k d).
Qed.

Lemma wf_dict_set k v d : wf_dict d -> wf v = true -> wf_dict (dict_set k v d).
Proof.
  intros [Hnd Hall] Hv. split.
  - rewrite keys_dict_set. unfold dict_mem.
    destruct (dict_get k d) eqn:E; [done|].
    apply NoDup_app. split_and!; [done | | apply NoDup_singleton].
    intros x Hx Hx'. apply list_elem_of_singleton in Hx' as ->.
    apply dict_get_None in E. apply E. by apply list_elem_of_In.
  - clear Hnd. induction d as [|[k' v'] d IH]; simpl.
    + by repeat constructor.
    + inversion Hall; subst.
      destruct (String.eqb k k'); constructor; auto.
Qed.

Lemma wf_dict_del k d : wf_dict d -> wf_dict (dict_del k d).
Proof.
  intros [Hnd Hall]. split.
  - clear Hall. induction d as [|[k' v'] d IH]; simpl; [done|].
    simpl in Hnd. apply NoDup_cons in Hnd as [Hk Hnd].
    destruct (String.eqb_spec k k') as [->|Hne]; [by apply IH|].
    simpl. apply NoDup_cons. split; [|by apply IH].
    intros Hin. apply Hk. apply list_elem_of_In.
    apply list_elem_of_In in Hin.
    assert (Hsome : dict_get k' (dict_del k d) <> None)
      by (by rewrite dict_get_None; intros Hc; apply Hc).
    rewrite dict_get_del_ne in Hsome by done.
    rewrite dict_get_None in Hsome.
    destruct (in_dec string_dec k' (keys d)) as [?|Hn]; [done | by destruct Hsome].
  - clear Hnd. induction d as [|[k' v'] d IH]; simpl; [done|].
    inversion Hall; subst.
    destruct (String.eqb k k'); [auto | constructor; auto].
Qed.

Lemma wf_strip_root_keys d : wf_dict d -> wf_dict (strip_root_keys d).
Proof. intros H. rewrite strip_root_keys_del. by repeat apply wf_dict_del. Qed.

Lemma wf_root_val root f : wf_dict root -> wf (root_val root f) = true.
Proof.
  intros H. unfold root_val, get, get_or.
  destruct (dict_get (root_key_of f) root) eqn:E1; [by eapply wf_dict_get|].
  destruct (dict_get f root) eqn:E2; [by eapply wf_dict_get | done].
Qed.

Lemma wf_sync_fields root fs block :
  wf_dict root -> wf_dict block ->
  wf_dict (fold_left (sync_field root) fs block).
Proof.
  intros Hroot. revert block.
  induction fs as [|f fs IH]; intros block Hb; simpl; [done|].
  apply IH. unfold sync_field. destruct (dict_mem f block); [done|].
  pose proof (wf_root_val root f Hroot) as Hv.
  destruct (root_val root f); try done; by apply wf_dict_set.
Qed.

Lemma wf_relocate k root block :
  wf_dict root -> wf_dict block ->
  wf_dict (relocate k (root, block)).1 /\ wf_dict (relocate k (root, block)).2.
Proof.
  intros Hr Hb. unfold relocate.
  destruct (dict_get k root) eqn:E; simpl; [|done].
  split; [by apply wf_dict_del|].
  destruct (dict_mem k block); [done|].
  apply wf_dict_set; [done | exact (wf_dict_get k v root Hr E)].
Qed.

(** Canonicalization keeps documents well formed. *)
Lemma wf_normalize v : wf v = true -> wf (normalize_card_v3 v) = true.
Proof.
  destruct v as [| | | | | |root0]; try done.
  intros Hwf. apply wf_VDict in Hwf.
  unfold normalize_card_v3.
  set (start := match dict_get "data" root0 with
                | Some (VDict d) => (root0, d)
                | _ => (dict_set "data" (VDict (strip_root_keys root0)) root0,
                        strip_root_keys root0)
                end).
  assert (Hstart : wf_dict start.1 /\ wf_dict start.2).
  { subst start.
    pose proof (wf_strip_root_keys root0 Hwf) as Hs.
    assert (Hfresh : wf_dict (dict_set "data" (VDict (strip_root_keys root0)) root0))
      by (apply wf_dict_set; [done | by apply wf_VDict]).
    destruct (dict_get "data" root0) as [[| | | | | |blk]|] eqn:E; simpl; try done.
    split; [done|]. apply wf_VDict. exact (wf_dict_get _ _ _ Hwf E). }
  destruct start as [root1 block0]. simpl in Hstart. destruct Hstart as [H1 H0].
  set (root2 := dict_set "spec_version" (VStr "3.0")
                  (dict_set "spec" (VStr "chara_card_v3") root1)).
  assert (H2 : wf_dict root2) by (by repeat apply wf_dict_set).
  pose proof (wf_sync_fields root2 core_fields block0 H2 H0) as Hb1.
  set (block1 := fold_left (sync_field root2) core_fields block0) in *.
  destruct (wf_relocate "character_book" root2 block1 H2 Hb1) as [H3 Hb2].
  destruct (relocate "character_book" (root2, block1)) as [root3 block2].
  simpl in H3, Hb2.
  destruct (wf_relocate "extensions" root3 block2 H3 Hb2) as [H4 Hb3].
  destruct (relocate "extensions" (root3, block2)) as [root4 block3].
  simpl in H4, Hb3.
  apply wf_VDict. apply wf_dict_set; [done|].
  apply wf_VDict. by apply wf_strip_root_keys.
Qed.

End WellFormed.

(** ** Content fingerprint *)

Section Fingerprint.
Import Data Spec Hash Builtins.
Implicit Types (k : string) (v a b : value) (d : dict).

Lemma sorted_Permutation (l1 l2 : list string) :
  l1 ≡ₚ l2 -> PyStr.sorted l1 = PyStr.sorted l2.
Proof.
  intros H. unfold PyStr.sorted.
  apply (StronglySorted_unique String.le).
  - apply StronglySorted_merge_sort; apply _.
  - apply StronglySorted_merge_sort; apply _.
  - by rewrite !merge_sort_Permutation.
Qed.

Lemma fold_left_pointwise {A B : Type} (f g : A -> B -> A) (l : list B) (a : A) :
  (forall x y, f x y = g x y) -> fold_left f l a = fold_left g l a.
Proof.
  intros H. revert a. induction l as [|y l IH]; intros a; simpl; [done|].
  by rewrite H, IH.
Qed.

(** [reorder] looks at its argument through its bindings and through
    the sorted list of its keys only. *)
Lemma reorder_ext (o1 o2 : dict) :
  (forall k, dict_get k o1 = dict_get k o2) ->
  PyStr.sorted (keys o1) = PyStr.sorted (keys o2) ->
  reorder o1 = reorder o2.
Proof.
  intros Hget Hkeys. unfold reorder. rewrite Hkeys.
  rewrite (fold_left_pointwise _
             (fun sorted_dict k =>
                match dict_get k o2 with
                | Some v => dict_set k v sorted_dict
                | None => sorted_dict
                end) all_priority)
    by (intros; by rewrite Hget).
  apply fold_left_pointwise. intros x y. unfold get, get_or.
  by rewrite Hget.
Qed.

Lemma deterministic_sort_VDict d :
  deterministic_sort (VDict d)
  = VDict (reorder (map (fun p => (p.1, deterministic_sort p.2)) d)).
Proof.
  unfold deterministic_sort at 1; fold deterministic_sort.
  do 2 f_equal. induction d as [|[k v] d IH]; [done|].
  rewrite IH. reflexivity.
Qed.

Lemma dict_get_map_values (g : value -> value) k d :
  dict_get k (map (fun p => (p.1, g p.2)) d) = g <$> dict_get k d.
Proof.
  induction d as [|[k' v'] d IH]; simpl; [done|].
  destruct (String.eqb k k'); [done | exact IH].
Qed.

Lemma keys_map_values (g : value -> value) d :
  keys (map (fun p => (p.1, g p.2)) d) = keys d.
Proof. unfold keys. rewrite map_map. by apply map_ext. Qed.

Lemma same_VList l1 l2 :
  same_up_to_key_order (VList l1) (VList l2) = true
  <-> Forall2 (fun x y => same_up_to_key_order x y = true) l1 l2.
Proof.
  simpl. revert l2. induction l1 as [|x l1 IH]; intros [|y l2].
  - split; [constructor | done].
  - split; [done | by inversion 1].
  - split; [done | by inversion 1].
  - rewrite andb_true_iff, IH. split.
    + intros [? ?]. by constructor.
    + by inversion 1.
Qed.

Lemma same_VDict d1 d2 :
  same_up_to_key_order (VDict d1) (VDict d2) = true
  <-> length d1 = length d2
      /\ Forall (fun p => exists y, dict_get p.1 d2 = Some y
                          /\ same_up_to_key_order p.2 y = true) d1.
Proof.
  simpl. rewrite andb_true_iff, Nat.eqb_eq. apply and_iff_compat_l.
  induction d1 as [|[k x] d1 IH].
  - split; [constructor | done].
  - rewrite andb_true_iff, IH. split.
    + intros [H ?]. constructor; [|done]. simpl.
      destruct (dict_get k d2) as [y|]; [by exists y | done].
    + inversion 1 as [|? ? (y & Hy & Hs) ?]; subst. simpl in Hy.
      by rewrite Hy.
Qed.

(** Documents that differ in key order only have one sorted form. *)
Lemma deterministic_sort_canonical a : forall b,
  wf a = true -> wf b = true ->
  same_up_to_key_order a b = true ->
  deterministic_sort a = deterministic_sort b.
Proof.
  induction a as [| x | x | x | x | l1 IH | d1 IH] using value_ind;
    intros [| y | y | y | y | l2 | d2] Ha Hb Hs; try discriminate Hs.
  - done.
  - simpl in Hs. apply Bool.eqb_prop in Hs. by subst.
  - simpl in Hs. apply Z.eqb_eq in Hs. by subst.
  - simpl in Hs. apply String.eqb_eq in Hs. by subst.
  - simpl in Hs. apply String.eqb_eq in Hs. by subst.
  - apply same_VList in Hs. apply wf_VList in Ha, Hb.
    change (VList (map deterministic_sort l1) = VList (map deterministic_sort l2)).
    f_equal. revert IH Ha Hb.
    induction Hs as [|x y l1 l2 Hxy Hs IHs]; intros IH Ha Hb; [done|].
    inversion IH; inversion Ha; inversion Hb; subst. simpl.
    f_equal; auto.
  - apply same_VDict in Hs as [Hlen Hs].
    apply wf_VDict in Ha, Hb. destruct Ha as [Hnd1 Hwf1].
    pose proof Hb as [Hnd2 Hwf2].
    rewrite !deterministic_sort_VDict. f_equal.
    assert (Hperm : keys d1 ≡ₚ keys d2).
    { apply NoDup_Permutation_bis.
      - by apply NoDup_ListNoDup.
      - unfold keys. rewrite !length_map. lia.
      - intros k Hk. unfold keys in Hk. apply in_map_iff in Hk as ([k' x] & <- & Hin).
        rewrite List.Forall_forall in Hs.
        destruct (Hs _ Hin) as (y & Hy & _). simpl in *.
        apply dict_get_In in Hy. change (In k' (map fst d2)).
        apply in_map_iff. by exists (k', y). }
    apply reorder_ext.
    + intros k. rewrite !dict_get_map_values.
      destruct (dict_get k d1) as [x|] eqn:E1.
      * pose proof (dict_get_In _ _ _ E1) as Hin.
        rewrite List.Forall_forall in Hs, IH, Hwf1.
        destruct (Hs _ Hin) as (y & Hy & Hxy). simpl in *.
        rewrite Hy. simpl. f_equal.
        apply (IH _ Hin); [exact (Hwf1 _ Hin) | | done].
        exact (wf_dict_get _ _ _ Hb Hy).
      * apply dict_get_None in E1.
        assert (E2 : dict_get k d2 = None).
        { apply dict_get_None. intros Hk. apply E1.
          apply list_elem_of_In. rewrite Hperm. by apply list_elem_of_In. }
        by rewrite E2.
    + rewrite !keys_map_values. by apply sorted_Permutation.
Qed.

End Fingerprint.

Section FingerprintOfCards.
Import Data Spec Hash Builtins.
Context {IP : Interpreter}.

(** On a card that the interpreter serializes, the fingerprint is the
    digest of the compact JSON text of the sorted canonical form,
    whatever the clock shows. *)
Lemma _calculate_data_hash_card (now : string) v :
  is_card v = true ->
  serializes (normalize_card_v3 v) = true ->
  _calculate_data_hash now v
  = Hex (Md5.hexdigest
           (Md5.encode (json_dumps (deterministic_sort (normalize_card_v3 v))))).
Proof.
  destruct v as [| | | | | |d]; try discriminate. intros Hc Hs.
  unfold _calculate_data_hash.
  assert (Ht : truthy (VDict d) = true).
  { destruct d; [discriminate Hc | done]. }
  rewrite Ht. cbn [negb str_in_value bind].
  simpl in Hc. destruct (dict_mem "name" d).
  - cbn [bind]. by rewrite Hs.
  - simpl in Hc. rewrite Hc. cbn [bind]. by rewrite Hs.
Qed.

Lemma is_card_normalize v : is_card v = true -> is_card (normalize_card_v3 v) = true.
Proof.
  destruct v as [| | | | | |d]; try discriminate. intros _.
  destruct (normalize_is_canonical d) as (root & -> & (block & Hdata & _)).
  simpl. unfold dict_mem at 2. rewrite Hdata. apply orb_true_r.
Qed.

Lemma normalize_card_v3_twice v :
  normalize_card_v3 (normalize_card_v3 v) = normalize_card_v3 v.
Proof.
  destruct v as [| | | | | |root0]; try reflexivity.
  destruct (normalize_is_canonical root0) as (root & -> & Hcanon).
  by apply normalize_canonical_fixed.
Qed.

(** C1 (amended).  Two well-formed cards (mappings with a [name] or a
    [data] key) whose canonical forms agree up to the order of keys
    and are serialized without an exception have the same fingerprint,
    whatever the clock shows at the two calls; and a card and its
    canonical form, which keeps the root-level copies, have the same
    fingerprint. *)
Theorem fingerprint_of_equal_canonical_forms (now1 now2 now3 : string)
    (d1 d2 : value) :
  wf d1 = true -> wf d2 = true ->
  is_card d1 = true -> is_card d2 = true ->
  same_up_to_key_order (normalize_card_v3 d1) (normalize_card_v3 d2) = true ->
  serializes (normalize_card_v3 d1) = true ->
  serializes (normalize_card_v3 d2) = true ->
  _calculate_data_hash now1 d1 = _calculate_data_hash now2 d2
  /\ _calculate_data_hash now3 (normalize_card_v3 d1) = _calculate_data_hash now1 d1.
Proof.
  intros Hw1 Hw2 Hc1 Hc2 Hsame Hs1 Hs2. split.
  - rewrite !_calculate_data_hash_card by done.
    do 4 f_equal.
    apply deterministic_sort_canonical; [by apply wf_normalize.. | done].
  - rewrite (_calculate_data_hash_card now3)
      by (by apply is_card_normalize || by rewrite normalize_card_v3_twice).
    rewrite (_calculate_data_hash_card now1) by done.
    by rewrite normalize_card_v3_twice.
Qed.

End FingerprintOfCards.

Section FingerprintExamples.
Import Data Spec Hash Builtins.

Lemma fingerprint_of_equal_canonical_forms_witness :
  @_calculate_data_hash example_interpreter "1.5" legacy_card
  = @_calculate_data_hash example_interpreter "2.5" versioned_card_with_copies
  /\ @_calculate_data_hash example_interpreter "3.5" (normalize_card_v3 legacy_card)
     = @_calculate_data_hash example_interpreter "1.5" legacy_card.
Proof.
  apply (@fingerprint_of_equal_canonical_forms example_interpreter);
    vm_compute; reflexivity.
Defined.

(** C1, as stated, fails: a legacy card and the versioned card with
    the same logical fields under [data] have different fingerprints,
    because the canonical form of the first keeps its root-level
    fields and nothing adds them to the second.  Both are digests, the
    clock plays no part. *)
Lemma fingerprint_differs_across_layouts :
  logical_fields legacy_card = logical_fields versioned_card
  /\ (exists h1 h2 : string,
        @_calculate_data_hash example_interpreter "1.5" legacy_card = Hex h1
        /\ @_calculate_data_hash example_interpreter "1.5" versioned_card = Hex h2
        /\ h1 <> h2).
Proof.
  split; [reflexivity|].
  eexists _, _. split; [vm_compute; reflexivity|].
  split; [vm_compute; reflexivity|]. discriminate.
Qed.

End FingerprintExamples.


(** ** File signature *)

Section FileSignature.
Import Hash Spec.

Lemma firstn_skipn_length {A : Type} (n : nat) (l : list A) :
  skipn (length (firstn n l)) l = skipn n l.
Proof.
  destruct (Nat.le_gt_cases n (length l)) as [Hle|Hgt].
  - by rewrite length_firstn, Nat.min_l.
  - rewrite firstn_all2 by lia. rewrite !skipn_all2; [done | lia | lia].
Qed.

(** The chunked loop feeds the hasher the rest of the file. *)
Lemma read_all_rest (turns : nat) : forall (f : handle) (h : hasher),
  (length (content f) - pos f < turns)%nat ->
  read_all turns f h = h ++ skipn (pos f) (content f).
Proof.
  assert (Hchunk : exists n, CHUNK = S n).
  { exists (Nat.pred CHUNK). unfold CHUNK. lia. }
  destruct Hchunk as [n Hn].
  induction turns as [|turns IH]; intros f h Hlt; [lia|].
  cbn [read_all]. unfold read.
  set (rest := skipn (pos f) (content f)).
  assert (Hrest : length rest = (length (content f) - pos f)%nat)
    by (subst rest; apply length_skipn).
  destruct (firstn CHUNK rest) as [|b chunk] eqn:Ec.
  - destruct rest; [by rewrite app_nil_r | by rewrite Hn in Ec].
  - rewrite IH.
    + cbn [content pos]. unfold update. rewrite <- app_assoc. f_equal.
      rewrite Nat.add_comm, <- skipn_skipn. fold rest. rewrite <- Ec.
      rewrite firstn_skipn_length. apply firstn_skipn.
    + assert (1 <= length rest)%nat.
      { destruct rest; [by rewrite firstn_nil in Ec | simpl; lia]. }
      cbn [content pos length]. lia.
Qed.

(** C4 (amended).  For every readable file the signature is the MD5
    of the size in decimal text followed, above 128 KiB, by the first
    and the last 64 KiB, and otherwise by the whole byte stream; the
    size is returned with it. *)
Theorem file_signature_bytes (fs : filesystem) (file_path : string)
    (bytes : list Byte.byte) :
  fs file_path = Some bytes ->
  get_file_hash_and_size fs file_path
  = (Md5.hexdigest (signed_bytes bytes), length bytes).
Proof.
  intros Hfile. unfold get_file_hash_and_size, signed_bytes. rewrite Hfile.
  generalize SAMPLE. intros sample.
  destruct (Nat.leb_spec (length bytes) (sample * 2)) as [Hsmall|Hbig].
  - assert (Hlt : (sample * 2 <? length bytes)%nat = false)
      by (apply Nat.ltb_ge; lia).
    rewrite Hlt. rewrite read_all_rest by (simpl; lia).
    reflexivity.
  - assert (Hlt : (sample * 2 <? length bytes)%nat = true)
      by (apply Nat.ltb_lt; lia).
    rewrite Hlt. unfold read, seek_end, update. cbn [content pos].
    rewrite skipn_O.
    assert (Hseek : (sample <=? length bytes)%nat = true)
      by (apply Nat.leb_le; lia).
    rewrite Hseek. cbn [content pos].
    rewrite (firstn_all2 (skipn _ _)) by (rewrite length_skipn; lia).
    by rewrite <- app_assoc.
Qed.

Lemma file_signature_bytes_witness :
  get_file_hash_and_size (fun _ => Some (Md5.encode "a")) "card.json"
  = (Md5.hexdigest (signed_bytes (Md5.encode "a")), length (Md5.encode "a")).
Proof. apply file_signature_bytes. reflexivity. Defined.

(** C4, as stated, fails on a file of one byte: the code hashes the
    size text and the byte, not the byte stream alone. *)
Lemma file_signature_small_file_counterexample :
  (get_file_hash_and_size (fun _ => Some (Md5.encode "a")) "card.json").1
    = "efaa153b0f682ae5170a3184fa0df28c"
  /\ signature_as_specified (Md5.encode "a")
     = "0cc175b9c0f1b6a831c399e269772661"
  /\ (get_file_hash_and_size (fun _ => Some (Md5.encode "a")) "card.json").1
     <> signature_as_specified (Md5.encode "a").
Proof. vm_compute. repeat split; discriminate. Qed.

End FileSignature.


(** ** Rule engine *)

Section RuleEngine.
Import Builtins Constants Engine Spec.
Context {RT : Runtime}.
Implicit Types (card rule : value) (r g : dict) (rules acts : list value).

(** *** Frame *)

Lemma precompute_frame card card' :
  precompute card = Ok card' ->
  card' = card
  \/ exists d s, card = VDict d
                 /\ card' = VDict (dict_set "character_book_content" (VStr s) d).
Proof.
  unfold precompute. destruct card as [| | | | | |d]; try discriminate.
  cbn [attr_get bind].
  destruct (truthy (get_or "character_book" VNone d)); [|intros [= <-]; by left].
  destruct (attr_get _ "entries" _) as [entries0|e]; [|discriminate].
  cbn [bind].
  destruct entries0 as [| | | | | l | es]; intros [= <-];
    try (by left); right; eauto.
Qed.

(** C2.  Evaluation leaves the ruleset as it was, and the card
    document as it was but for the precomputed world-info search
    field: the card is either untouched or has the one key
    [character_book_content] set; this holds whether a plan is
    returned or an exception ends the evaluation. *)
Theorem evaluate_frame (st : store) :
  ruleset (evaluate st).1 = ruleset st
  /\ (card_data (evaluate st).1 = card_data st
      \/ exists d s,
           card_data st = VDict d
           /\ card_data (evaluate st).1
              = VDict (dict_set "character_book_content" (VStr s) d))
  /\ (forall d d' k,
        card_data st = VDict d -> card_data (evaluate st).1 = VDict d' ->
        k <> "character_book_content" -> dict_get k d' = dict_get k d).
Proof.
  unfold evaluate.
  destruct (precompute (card_data st)) as [card'|e] eqn:E; cbn [fst].
  - apply precompute_frame in E. cbn [ruleset card_data].
    split; [done|]. split; [exact E|].
    intros d d' k Hd Hd' Hk.
    destruct E as [E | (d0 & s & E0 & E)]; [congruence|].
    rewrite Hd in E0. rewrite Hd' in E. inversion E0; inversion E; subst.
    by apply dict_get_set_ne.
  - split; [done|]. split; [by left|]. intros d d' k Hd Hd' _. congruence.
Qed.

(** *** Sequence equality *)

Lemma split_without_separator (c : ascii) (s : string) :
  PyStr.contains (String c EmptyString) s = false ->
  PyStr.split c s = [s].
Proof.
  induction s as [|c' s IH]; [done|].
  cbn [PyStr.contains PyStr.split String.prefix].
  destruct (ascii_dec c c') as [->|Hne].
  - by destruct s.
  - intros H. apply orb_false_iff in H as [_ H].
    destruct (Ascii.eqb_spec c' c) as [->|_]; [done|].
    by rewrite IH.
Qed.

(** Where [eq] on a sequence does what the specification says: a
    target with a comma, or a case-insensitive condition whose
    target carries no surrounding blanks. *)
Lemma check_eq_sequence_agrees (items : list value) (target : string)
    (case_sensitive : value) :
  PyStr.contains "," target = true
  \/ (truthy case_sensitive = false /\ PyStr.strip target = target) ->
  _check_condition (VList items) (VStr OP_EQ) (VStr target) case_sensitive
  = eq_as_specified items target.
Proof.
  intros H. unfold _check_condition, check_body, eq_as_specified.
  cbn [eq_str OP_EQ OP_EXISTS OP_NOT_EXISTS OP_GT OP_LT OP_TRUE OP_FALSE
       OP_REGEX is_none String.eqb Ascii.eqb Bool.eqb orb andb negb
       str_in_value bind py_str].
  destruct (PyStr.contains "," target) eqn:Hc; cbn [bind].
  - reflexivity.
  - destruct H as [H | [Hcs Hstrip]]; [discriminate|].
    rewrite Hcs. cbn [negb]. rewrite split_without_separator by done.
    cbn [map]. by rewrite Hstrip.
Qed.

(** C5.  The scenario of the specification matches; but with
    [case_sensitive] set and a target without a comma the code
    compares the lower-cased elements with the target as typed, so
    the sequence [["A"]] does not equal the target ["A"], where the
    lower-cased comparison of the specification holds. *)
Theorem check_eq_sequence_case_sensitive :
  _check_condition (VList [VStr "a"; VStr "b"]) (VStr OP_EQ) (VStr "b,a")
    (VBool false) = true
  /\ eq_as_specified [VStr "A"] "A" = true
  /\ _check_condition (VList [VStr "A"]) (VStr OP_EQ) (VStr "A")
       (VBool true) = false.
Proof. repeat split; vm_compute; reflexivity. Qed.

(** *** The loop over the rules *)



(** After a rule that matches and stops, the rest of the list plays no
    part, however the earlier rules fared. *)
Lemma run_rules_later_rules_irrelevant card pre : forall rule post post' acts acc,
  eval_rule card rule = Ok (Matched acts true) ->
  run_rules card (pre ++ rule :: post) acc
  = run_rules card (pre ++ rule :: post') acc.
Proof.
  induction pre as [|p pre IH]; intros rule post post' acts acc Hrule.
  - cbn [app run_rules]. by rewrite Hrule.
  - cbn [app run_rules]. destruct (eval_rule card p) as [o|e]; [|done].
    cbn [bind]. destruct o as [| | |acts' stop]; try (by eapply IH).
    destruct stop; [done | by eapply IH].
Qed.


(** *** Empty rules and empty groups *)

Lemma eval_rule_without_groups card r :
  truthy (normalized_groups r) = false ->
  eval_rule card (VDict r) = Ok NoGroups
  \/ eval_rule card (VDict r) = Ok Disabled.
Proof.
  intros H. unfold eval_rule. cbn [attr_get bind].
  destruct (truthy (get_or "enabled" (VBool true) r)); cbn [negb]; [|by right].
  rewrite H. by left.
Qed.

(** A group without conditions is never true, whatever else it holds. *)
Lemma eval_group_empty_never_true card g :
  truthy (get_or "conditions" (VList []) g) = false ->
  eval_group card (VDict g) <> Ok true.
Proof.
  intros H. unfold eval_group. cbn [attr_get bind]. rewrite H.
  by destruct (upper_of _).
Qed.

(** C7.  A rule whose group list, after the legacy wrapping, is empty
    is skipped: it adds no action and does not stop the loop, whatever
    its other fields; and a group without conditions (its [logic] a
    string, as in the data model) evaluates to false. *)
Theorem empty_rule_and_empty_group_never_match (card : value) (r g : dict)
    (rest acc : list value) (logic : string) :
  truthy (normalized_groups r) = false ->
  truthy (get_or "conditions" (VList []) g) = false ->
  get_or "logic" (VStr "AND") g = VStr logic ->
  (eval_rule card (VDict r) = Ok NoGroups
   \/ eval_rule card (VDict r) = Ok Disabled)
  /\ run_rules card (VDict r :: rest) acc = run_rules card rest acc
  /\ eval_group card (VDict g) = Ok false.
Proof.
  intros Hr Hg Hlogic.
  pose proof (eval_rule_without_groups card r Hr) as Hskip.
  split; [exact Hskip|]. split.
  - cbn [run_rules]. by destruct Hskip as [-> | ->].
  - unfold eval_group. cbn [attr_get bind]. rewrite Hg, Hlogic. reflexivity.
Qed.

(** *** The [enabled] test *)

Lemma eval_rule_disabled_iff card r :
  eval_rule card (VDict r) = Ok Disabled
  <-> exists v, dict_get "enabled" r = Some v /\ truthy v = false.
Proof.
  unfold eval_rule. cbn [attr_get bind]. unfold get_or.
  destruct (dict_get "enabled" r) as [v|] eqn:E.
  - destruct (truthy v) eqn:Ht; cbn [negb].
    + split.
      * destruct (truthy (normalized_groups r)); cbn [negb]; [|done].
        destruct (upper_of _); cbn [bind]; [|done].
        destruct (py_iter _); cbn [bind]; [|done].
        destruct (for_each _ _); cbn [bind]; [|done].
        destruct (if String.eqb _ _ then _ else _); [|done].
        by destruct (py_iter _).
      * intros (v' & [= <-] & Hv). congruence.
    + split; [by exists v | done].
  - cbn [truthy negb]. split.
    + destruct (truthy (normalized_groups r)); cbn [negb]; [|done].
      destruct (upper_of _); cbn [bind]; [|done].
      destruct (py_iter _); cbn [bind]; [|done].
      destruct (for_each _ _); cbn [bind]; [|done].
      destruct (if String.eqb _ _ then _ else _); [|done].
      by destruct (py_iter _).
    + by intros (v' & [=] & _).
Qed.

(** C9 (amended).  A rule without the [enabled] key is treated as
    enabled; a rule is skipped by the [enabled] test exactly when the
    key is present with a value Python's truth test rejects: [false],
    and likewise [null], [0] or an empty string, list or mapping. *)
Theorem rule_skipped_iff_enabled_falsy (card : value) (r : dict) :
  (dict_get "enabled" r = None -> eval_rule card (VDict r) <> Ok Disabled)
  /\ (dict_get "enabled" r = Some (VBool false) ->
      eval_rule card (VDict r) = Ok Disabled)
  /\ (eval_rule card (VDict r) = Ok Disabled
      <-> exists v, dict_get "enabled" r = Some v /\ truthy v = false).
Proof.
  split; [|split]; [| |apply eval_rule_disabled_iff].
  - intros Hnone Hdis. apply eval_rule_disabled_iff in Hdis as (v & Hv & _).
    congruence.
  - intros Hfalse. apply eval_rule_disabled_iff. by exists (VBool false).
Qed.

End RuleEngine.

(** *** Worked examples of the rule engine *)

Section RuleEngineExamples.
Import Builtins Constants Engine Spec.


Lemma empty_rule_and_empty_group_never_match_witness :
  (@eval_rule example_runtime example_card (VDict rule_without_groups) = Ok NoGroups
   \/ @eval_rule example_runtime example_card (VDict rule_without_groups) = Ok Disabled)
  /\ @run_rules example_runtime example_card
       [VDict rule_without_groups; VDict rule_B] []
     = @run_rules example_runtime example_card [VDict rule_B] []
  /\ @eval_group example_runtime example_card (VDict group_without_conditions)
     = Ok false.
Proof.
  apply (@empty_rule_and_empty_group_never_match example_runtime
           example_card rule_without_groups group_without_conditions
           [VDict rule_B] [] "and"); reflexivity.
Defined.

(** C9, as stated, fails: a rule that matches the card and carries
    [enabled: null] is skipped, though its [enabled] field is not
    [false]; without the key the same rule fires. *)
Lemma rule_with_null_enabled_is_skipped :
  dict_get "enabled" rule_enabled_null = Some VNone
  /\ @eval_rule example_runtime example_card (VDict rule_enabled_null)
     = Ok Disabled
  /\ @eval_rule example_runtime example_card (VDict rule_B)
     = Ok (Matched [tag_action "from-B"] false).
Proof. repeat split. Qed.

End RuleEngineExamples.

(** ** Plan executor *)

Section PlanExecutor.
Import Executor Spec.
Context {world : Type} {CS : CardService world}.



End PlanExecutor.

Section PlanExecutorExamples.
Import Executor Spec.


End PlanExecutorExamples.

(** ** Rule store *)

Section RuleStore.
Import Builtins Manager Spec.
Context {TX : Text}.

Lemma _sanitize_filename_nonempty (name : value) : _sanitize_filename name <> EmptyString.
Proof.
  unfold _sanitize_filename.
  destruct (String.eqb_spec
              (PyStr.replace_class illegal "_" (str_strip (py_str name))) EmptyString);
    done.
Qed.


End RuleStore.

Section RuleStoreExamples.
Import Builtins Manager Spec.


End RuleStoreExamples.

(* ================================================================= *)
(** * Further properties of the modelled code *)

(** ** Deterministic ordering *)

Section DeterministicSort.
Import Data Spec Builtins.
Implicit Types (k : string) (v a b : value) (d o : dict).

(** A loop that sets the keys [ks] for which [g] has a value. *)
Lemma fold_set_get (g : string -> option value) ks : forall acc k,
  dict_get k
    (fold_left (fun acc k => match g k with
                             | Some v => dict_set k v acc
                             | None => acc
                             end) ks acc)
  = match (if str_in k ks then g k else None) with
    | Some v => Some v
    | None => dict_get k acc
    end.
Proof.
  induction ks as [|k0 ks IH]; intros acc k; [done|].
  cbn [fold_left]. rewrite IH. unfold str_in. cbn [existsb].
  fold (str_in k ks).
  destruct (String.eqb_spec k k0) as [->|Hne]; cbn [orb].
  - destruct (str_in k0 ks), (g k0);
      rewrite ?dict_get_set_eq; done.
  - destruct (str_in k ks), (g k), (g k0);
      rewrite ?dict_get_set_ne by done; done.
Qed.

Lemma str_in_In k l : str_in k l = true <-> In k l.
Proof.
  unfold str_in. rewrite existsb_exists. split.
  - intros (x & Hx & Heq). apply String.eqb_eq in Heq. by subst.
  - intros H. exists k. by rewrite String.eqb_refl.
Qed.

Lemma In_sorted k (l : list string) : In k (PyStr.sorted l) <-> In k l.
Proof.
  unfold PyStr.sorted. rewrite <- !list_elem_of_In.
  by rewrite merge_sort_Permutation.
Qed.

Lemma In_keys k d : In k (keys d) <-> dict_get k d <> None.
Proof.
  rewrite dict_get_None. destruct (in_dec string_dec k (keys d)); tauto.
Qed.

(** Reordering changes no binding. *)
Lemma reorder_get o k : dict_get k (reorder o) = dict_get k o.
Proof.
  unfold reorder. generalize all_priority. intros prio.
  rewrite (fold_left_pointwise _
             (fun acc k => match (if str_in k prio then None
                                  else Some (get k o)) with
                           | Some v => dict_set k v acc
                           | None => acc
                           end))
    by (intros x y; by destruct (str_in y prio)).
  rewrite fold_set_get, fold_set_get. cbn [dict_get].
  destruct (str_in k prio) eqn:Hp.
  - destruct (str_in k (PyStr.sorted (keys o))); by destruct (dict_get k o).
  - destruct (str_in k (PyStr.sorted (keys o))) eqn:Hin.
    + apply str_in_In, In_sorted, In_keys in Hin.
      unfold get, get_or. by destruct (dict_get k o).
    + assert (Hnone : dict_get k o = None).
      { destruct (dict_get k o) eqn:E; [|done].
        assert (Hk : str_in k (PyStr.sorted (keys o)) = true).
        { apply str_in_In, In_sorted, In_keys. congruence. }
        congruence. }
      by rewrite Hnone.
Qed.

Lemma NoDup_keys_dict_set k v d : NoDup (keys d) -> NoDup (keys (dict_set k v d)).
Proof.
  intros Hnd. rewrite keys_dict_set. unfold dict_mem.
  destruct (dict_get k d) eqn:E; [done|].
  apply NoDup_app. split_and!; [done | | apply NoDup_singleton].
  intros x Hx Hx'. apply list_elem_of_singleton in Hx' as ->.
  apply dict_get_None in E. apply E. by apply list_elem_of_In.
Qed.

Lemma NoDup_keys_reorder o : NoDup (keys (reorder o)).
Proof.
  unfold reorder. generalize all_priority. intros prio.
  assert (Hfold : forall (f : dict -> string -> dict) ks acc,
            (forall acc k, NoDup (keys acc) -> NoDup (keys (f acc k))) ->
            NoDup (keys acc) -> NoDup (keys (fold_left f ks acc))).
  { intros f ks. induction ks as [|k ks IH]; intros acc Hf Hacc; [done|].
    cbn [fold_left]. apply IH; [done | by apply Hf]. }
  apply Hfold.
  - intros acc k Hacc. destruct (str_in k prio); [done|].
    by apply NoDup_keys_dict_set.
  - apply Hfold; [|constructor].
    intros acc k Hacc. destruct (dict_get k o); [|done].
    by apply NoDup_keys_dict_set.
Qed.

Lemma keys_Permutation d1 d2 :
  NoDup (keys d1) -> NoDup (keys d2) ->
  (forall k, dict_get k d1 = None <-> dict_get k d2 = None) ->
  keys d1 ≡ₚ keys d2.
Proof.
  intros H1 H2 Hiff. apply NoDup_Permutation; [done..|].
  intros k. rewrite !list_elem_of_In, !In_keys, Hiff. done.
Qed.

Lemma reorder_keys_Permutation o : NoDup (keys o) -> keys (reorder o) ≡ₚ keys o.
Proof.
  intros H. apply keys_Permutation; [apply NoDup_keys_reorder | done |].
  intros k. by rewrite reorder_get.
Qed.

Lemma In_dict_get k v d : NoDup (keys d) -> In (k, v) d <-> dict_get k d = Some v.
Proof. intros H. split; [by apply dict_get_NoDup | apply dict_get_In]. Qed.

(** Sorting keeps documents well formed. *)
Lemma wf_deterministic_sort v : wf v = true -> wf (deterministic_sort v) = true.
Proof.
  induction v as [| | | | | l IH | d IH] using value_ind; intros Hwf; try done.
  - change (wf (VList (map deterministic_sort l)) = true).
    apply wf_VList. apply wf_VList in Hwf.
    rewrite List.Forall_forall in *. intros y Hy.
    apply in_map_iff in Hy as (x & <- & Hx). apply IH; auto.
  - rewrite deterministic_sort_VDict. apply wf_VDict.
    apply wf_VDict in Hwf as [Hnd Hall].
    split; [apply NoDup_keys_reorder|].
    rewrite List.Forall_forall in *. intros [k y] Hin.
    apply In_dict_get in Hin; [|apply NoDup_keys_reorder].
    rewrite reorder_get, dict_get_map_values in Hin.
    destruct (dict_get k d) as [x|] eqn:E; [|done].
    inversion Hin; subst. apply dict_get_In in E.
    apply (IH _ E). apply (Hall _ E).
Qed.

(** Sorting reorders only: the sorted document has the content of the
    original. *)
Lemma same_deterministic_sort v :
  wf v = true -> same_up_to_key_order v (deterministic_sort v) = true.
Proof.
  induction v as [| x | x | x | x | l IH | d IH] using value_ind;
    intros Hwf.
  - done.
  - by destruct x.
  - apply Z.eqb_refl.
  - apply String.eqb_refl.
  - apply String.eqb_refl.
  - change (same_up_to_key_order (VList l) (VList (map deterministic_sort l)) = true).
    apply same_VList. apply wf_VList in Hwf.
    induction l as [|x l IHl]; [constructor|].
    inversion IH; inversion Hwf; subst. constructor; auto.
  - rewrite deterministic_sort_VDict. apply same_VDict.
    apply wf_VDict in Hwf as [Hnd Hall]. split.
    + pose proof (reorder_keys_Permutation
                    (map (fun p => (p.1, deterministic_sort p.2)) d)) as Hp.
      rewrite keys_map_values in Hp. specialize (Hp Hnd).
      apply Permutation_length in Hp. unfold keys in Hp.
      rewrite !length_map in Hp. done.
    + rewrite List.Forall_forall in *. intros [k x] Hin. simpl.
      exists (deterministic_sort x). split.
      * rewrite reorder_get, dict_get_map_values.
        by rewrite (dict_get_NoDup _ _ _ Hnd Hin).
      * apply (IH _ Hin). apply (Hall _ Hin).
Qed.

End DeterministicSort.

Section DeterministicSortProperties.
Import Data Spec Builtins DataMore.
Implicit Types (k : string) (v a b : value) (d o : dict).

Lemma NoDup_all_priority : NoDup all_priority.
Proof. apply (bool_decide_unpack _). by vm_compute. Qed.

Lemma fold_set_keys (g : string -> option value) ks : forall acc,
  NoDup ks ->
  (forall k, In k ks -> g k <> None -> dict_get k acc = None) ->
  keys (fold_left (fun acc k => match g k with
                                | Some v => dict_set k v acc
                                | None => acc
                                end) ks acc)
  = keys acc ++ List.filter (fun k => bool_decide (g k <> None)) ks.
Proof.
  induction ks as [|k0 ks IH]; intros acc Hnd Hfresh.
  - cbn. by rewrite app_nil_r.
  - apply NoDup_cons in Hnd as [Hk0 Hnd]. cbn [fold_left List.filter].
    destruct (g k0) as [v|] eqn:Hg.
    + rewrite bool_decide_eq_true_2 by done.
      rewrite IH; [|done|].
      * rewrite keys_dict_set. unfold dict_mem.
        rewrite (Hfresh k0) by (by left || congruence).
        by rewrite <- app_assoc.
      * intros k Hin Hgk. rewrite dict_get_set_ne.
        -- apply Hfresh; [by right | done].
        -- intros ->. apply Hk0. by apply list_elem_of_In.
    + rewrite bool_decide_eq_false_2 by (intros H; by apply H).
      apply IH; [done|]. intros k Hin. apply Hfresh. by right.
Qed.

(** The key order [reorder] produces: the priority keys that occur,
    in priority order, then the other keys in sorted order. *)
Lemma reorder_keys o :
  NoDup (keys o) ->
  keys (reorder o)
  = List.filter (fun k => dict_mem k o) all_priority
    ++ List.filter (fun k => negb (str_in k all_priority)) (PyStr.sorted (keys o)).
Proof.
  intros Hnd. unfold reorder.
  pose proof NoDup_all_priority as Hprio. revert Hprio.
  generalize all_priority. intros prio Hprio.
  rewrite (fold_left_pointwise _
             (fun acc k => match (if str_in k prio then None
                                  else Some (get k o)) with
                           | Some v => dict_set k v acc
                           | None => acc
                           end))
    by (intros x y; by destruct (str_in y prio)).
  rewrite fold_set_keys.
  - rewrite fold_set_keys; [|done|done]. cbn [keys map app]. f_equal.
    + apply filter_ext. intros k. unfold dict_mem.
      destruct (dict_get k o); [by rewrite bool_decide_eq_true_2 |].
      by rewrite bool_decide_eq_false_2 by (intros H; by apply H).
    + apply filter_ext. intros k.
      destruct (str_in k prio); cbn [negb];
        [by rewrite bool_decide_eq_false_2 by (intros H; by apply H)
        | by rewrite bool_decide_eq_true_2].
  - unfold PyStr.sorted. apply NoDup_ListNoDup.
    rewrite merge_sort_Permutation. by apply NoDup_ListNoDup.
  - intros k _ Hk. rewrite fold_set_get. cbn [dict_get].
    destruct (str_in k prio); [by destruct Hk | done].
Qed.

(** X1.  Two well-formed documents with the same content under
    different key orders serialize to the same text once sorted. *)
Theorem sorted_json_ignores_key_order (a b : value) :
  wf a = true -> wf b = true ->
  same_up_to_key_order a b = true ->
  json_dumps (deterministic_sort a) = json_dumps (deterministic_sort b).
Proof.
  intros Ha Hb Hsame. f_equal. by apply deterministic_sort_canonical.
Qed.

Lemma sorted_json_ignores_key_order_witness :
  json_dumps (deterministic_sort doc_in_order)
  = json_dumps (deterministic_sort doc_shuffled).
Proof.
  apply sorted_json_ignores_key_order; vm_compute; reflexivity.
Defined.

(** X2.  Sorting alters no value: the sorted document is well formed,
    has the content of the original, and every key of a mapping is
    bound to the sorted form of the value it had. *)
Theorem deterministic_sort_keeps_content (v : value) (d d' : dict) (k : string) :
  wf v = true ->
  v = VDict d -> deterministic_sort v = VDict d' ->
  wf (deterministic_sort v) = true
  /\ same_up_to_key_order v (deterministic_sort v) = true
  /\ length d' = length d
  /\ dict_get k d' = deterministic_sort <$> dict_get k d.
Proof.
  intros Hwf -> Hd'. split; [by apply wf_deterministic_sort|].
  split; [by apply same_deterministic_sort|].
  rewrite deterministic_sort_VDict in Hd'. inversion Hd'; subst.
  apply wf_VDict in Hwf as [Hnd _]. split.
  - pose proof (reorder_keys_Permutation
                  (map (fun p => (p.1, deterministic_sort p.2)) d)) as Hp.
    rewrite keys_map_values in Hp. specialize (Hp Hnd).
    apply Permutation_length in Hp. unfold keys in Hp.
    by rewrite !length_map in Hp.
  - by rewrite reorder_get, dict_get_map_values.
Qed.

Lemma deterministic_sort_keeps_content_witness :
  wf (deterministic_sort doc_shuffled) = true
  /\ same_up_to_key_order doc_shuffled (deterministic_sort doc_shuffled) = true
  /\ length [ ("name", VStr "Foo");
              ("alpha", VDict [ ("a", VList [VDict [("x", VNone); ("y", VNone)]]);
                                ("b", VInt 2) ]);
              ("zeta", VInt 1) ]
     = length [ ("alpha", VDict [ ("a", VList [VDict [("x", VNone); ("y", VNone)]]);
                                  ("b", VInt 2) ]);
                ("zeta", VInt 1); ("name", VStr "Foo") ]
  /\ dict_get "zeta"
       [ ("name", VStr "Foo");
         ("alpha", VDict [ ("a", VList [VDict [("x", VNone); ("y", VNone)]]);
                           ("b", VInt 2) ]);
         ("zeta", VInt 1) ]
     = deterministic_sort
         <$> dict_get "zeta"
               [ ("alpha", VDict [ ("a", VList [VDict [("x", VNone); ("y", VNone)]]);
                                   ("b", VInt 2) ]);
                 ("zeta", VInt 1); ("name", VStr "Foo") ].
Proof.
  apply (deterministic_sort_keeps_content doc_shuffled); vm_compute; reflexivity.
Defined.

(** X3.  Sorting is idempotent on well-formed documents. *)
Theorem deterministic_sort_idempotent (v : value) :
  wf v = true ->
  deterministic_sort (deterministic_sort v) = deterministic_sort v.
Proof.
  intros Hwf. symmetry. apply deterministic_sort_canonical.
  - done.
  - by apply wf_deterministic_sort.
  - by apply same_deterministic_sort.
Qed.

Lemma deterministic_sort_idempotent_witness :
  deterministic_sort (deterministic_sort doc_shuffled)
  = deterministic_sort doc_shuffled.
Proof. apply deterministic_sort_idempotent. vm_compute. reflexivity. Defined.

(** X4.  The keys of a sorted mapping are the priority keys that occur
    in it, in the order of the priority list, followed by its other
    keys in ascending order. *)
Theorem deterministic_sort_key_order (d d' : dict) :
  wf (VDict d) = true ->
  deterministic_sort (VDict d) = VDict d' ->
  keys d'
  = List.filter (fun k => dict_mem k d) all_priority
    ++ List.filter (fun k => negb (str_in k all_priority)) (PyStr.sorted (keys d)).
Proof.
  intros Hwf Hd'. apply wf_VDict in Hwf as [Hnd _].
  rewrite deterministic_sort_VDict in Hd'. inversion Hd'; subst.
  rewrite reorder_keys by (by rewrite keys_map_values).
  rewrite keys_map_values. f_equal. apply filter_ext. intros k.
  unfold dict_mem. rewrite dict_get_map_values. by destruct (dict_get k d).
Qed.

Lemma deterministic_sort_key_order_witness :
  keys [ ("name", VStr "Foo");
         ("alpha", VDict [ ("a", VList [VDict [("x", VNone); ("y", VNone)]]);
                           ("b", VInt 2) ]);
         ("zeta", VInt 1) ]
  = List.filter
      (fun k => dict_mem k
                  [ ("alpha", VDict [ ("a", VList [VDict [("x", VNone); ("y", VNone)]]);
                                      ("b", VInt 2) ]);
                    ("zeta", VInt 1); ("name", VStr "Foo") ]) all_priority
    ++ List.filter (fun k => negb (str_in k all_priority))
         (PyStr.sorted
            (keys [ ("alpha", VDict [ ("a", VList [VDict [("x", VNone); ("y", VNone)]]);
                                      ("b", VInt 2) ]);
                    ("zeta", VInt 1); ("name", VStr "Foo") ])).
Proof.
  apply deterministic_sort_key_order; vm_compute; reflexivity.
Defined.

End DeterministicSortProperties.

(** ** Canonicalizer, further *)

Section CanonicalizerProperties.
Import Data Spec Builtins DataMore.
Implicit Types (k f : string) (v : value) (root block : dict).

Lemma sync_field_keeps root block f k v :
  dict_get k block = Some v -> dict_get k (sync_field root block f) = Some v.
Proof.
  intros H. unfold sync_field, dict_mem.
  destruct (dict_get f block) eqn:E; [done|].
  assert (k <> f) by congruence.
  destruct (root_val root f); try done; by rewrite dict_get_set_ne.
Qed.

Lemma sync_field_other root block f k :
  k <> f -> dict_get k (sync_field root block f) = dict_get k block.
Proof.
  intros H. unfold sync_field. destruct (dict_mem f block); [done|].
  destruct (root_val root f); try done; by rewrite dict_get_set_ne.
Qed.

Lemma sync_fields_keep root fs : forall block k v,
  dict_get k block = Some v ->
  dict_get k (fold_left (sync_field root) fs block) = Some v.
Proof.
  induction fs as [|f fs IH]; intros block k v H; [done|].
  cbn [fold_left]. apply IH. by apply sync_field_keeps.
Qed.

(** A missing core field with a root value is filled in with it. *)
Lemma sync_fields_fill root fs : forall block f,
  In f fs -> dict_get f block = None -> root_val root f <> VNone ->
  dict_get f (fold_left (sync_field root) fs block) = Some (root_val root f).
Proof.
  induction fs as [|g fs IH]; intros block f Hin Hnone Hval; [done|].
  cbn [fold_left]. destruct (decide (g = f)) as [->|Hne].
  - apply sync_fields_keep. unfold sync_field, dict_mem. rewrite Hnone.
    destruct (root_val root f) eqn:E; try done; apply dict_get_set_eq.
  - destruct Hin as [?|Hin]; [done|].
    apply IH; [done | | done]. by rewrite sync_field_other.
Qed.

(** A field without a root value is not created. *)
Lemma sync_fields_skip root fs : forall block f,
  dict_get f block = None -> root_val root f = VNone ->
  dict_get f (fold_left (sync_field root) fs block) = None.
Proof.
  induction fs as [|g fs IH]; intros block f Hnone Hval; [done|].
  cbn [fold_left]. apply IH; [|done].
  destruct (decide (f = g)) as [<-|Hne].
  - unfold sync_field, dict_mem. by rewrite Hnone, Hval.
  - by rewrite sync_field_other.
Qed.

Lemma relocate_keeps k0 root block k v :
  dict_get k block = Some v ->
  dict_get k (relocate k0 (root, block)).2 = Some v.
Proof.
  intros H. unfold relocate. destruct (dict_get k0 root); [|done].
  cbn [snd]. unfold dict_mem. destruct (dict_get k0 block) eqn:E; [done|].
  rewrite dict_get_set_ne; [done | congruence].
Qed.

Lemma relocate_other k0 root block k :
  k <> k0 -> dict_get k (relocate k0 (root, block)).2 = dict_get k block.
Proof.
  intros H. unfold relocate. destruct (dict_get k0 root); [|done].
  cbn [snd]. destruct (dict_mem k0 block); [done|]. by rewrite dict_get_set_ne.
Qed.

Lemma relocate_moves k0 root block v :
  dict_get k0 root = Some v ->
  dict_get k0 (relocate k0 (root, block)).2
  = Some (default v (dict_get k0 block)).
Proof.
  intros H. unfold relocate. rewrite H. cbn [snd]. unfold dict_mem.
  destruct (dict_get k0 block) eqn:E; [done|]. apply dict_get_set_eq.
Qed.

(** The steps of [normalize_card_v3], spelled out. *)
Lemma normalize_steps root0 :
  exists root1,
    (root1 = root0
     \/ root1 = dict_set "data" (VDict (strip_root_keys root0)) root0)
    /\ let root2 := dict_set "spec_version" (VStr "3.0")
                      (dict_set "spec" (VStr "chara_card_v3") root1) in
       let block1 := fold_left (sync_field root2) core_fields (initial_block root0) in
       let block2 := (relocate "character_book" (root2, block1)).2 in
       let block3 := (relocate "extensions"
                        (dict_del "character_book" root2, block2)).2 in
       normalize_card_v3 (VDict root0)
       = VDict (dict_set "data" (VDict (strip_root_keys block3))
                  (dict_del "extensions" (dict_del "character_book" root2))).
Proof.
  unfold normalize_card_v3, initial_block.
  set (start := match dict_get "data" root0 with
                | Some (VDict d) => (root0, d)
                | _ => (dict_set "data" (VDict (strip_root_keys root0)) root0,
                        strip_root_keys root0)
                end).
  assert (Hstart :
    (start.1 = root0
     \/ start.1 = dict_set "data" (VDict (strip_root_keys root0)) root0)
    /\ start.2 = match dict_get "data" root0 with
                 | Some (VDict d) => d
                 | _ => strip_root_keys root0
                 end).
  { subst start.
    destruct (dict_get "data" root0) as [[| | | | | |blk]|]; cbn [fst snd]; auto. }
  destruct start as [root1 block0]. cbn [fst snd] in Hstart.
  destruct Hstart as [Hroot1 <-].
  exists root1. split; [exact Hroot1|]. cbv zeta.
  set (root2 := dict_set "spec_version" (VStr "3.0")
                  (dict_set "spec" (VStr "chara_card_v3") root1)).
  set (block1 := fold_left (sync_field root2) core_fields block0).
  pose proof (relocate_root "character_book" root2 block1) as Hr3.
  destruct (relocate "character_book" (root2, block1)) as [root3 block2].
  cbn [fst snd] in *. subst root3.
  pose proof (relocate_root "extensions" (dict_del "character_book" root2) block2) as Hr4.
  destruct (relocate "extensions" (dict_del "character_book" root2, block2))
    as [root4 block3].
  cbn [fst snd] in *. by subst root4.
Qed.

Lemma not_header k :
  ~ In k ["spec"; "spec_version"; "data"] ->
  k <> "spec" /\ k <> "spec_version" /\ k <> "data".
Proof. cbn. intros H. repeat split; intros ->; tauto. Qed.

(** Root lookups after the header is written. *)
Lemma root2_get root0 root1 k :
  root1 = root0
  \/ root1 = dict_set "data" (VDict (strip_root_keys root0)) root0 ->
  ~ In k ["spec"; "spec_version"; "data"] ->
  dict_get k (dict_set "spec_version" (VStr "3.0")
                (dict_set "spec" (VStr "chara_card_v3") root1))
  = dict_get k root0.
Proof.
  intros Hroot1 Hk. apply not_header in Hk as (H1 & H2 & H3).
  rewrite !dict_get_set_ne by done.
  destruct Hroot1 as [-> | ->]; [done | by rewrite dict_get_set_ne].
Qed.

(** Every binding of the initial block, the header keys apart, is in
    the block of the result. *)
Lemma normalize_keeps_block root0 k v :
  dict_get k (initial_block root0) = Some v ->
  ~ In k ["spec"; "spec_version"; "data"] ->
  exists block,
    data_block_of (normalize_card_v3 (VDict root0)) = Some block
    /\ dict_get k block = Some v.
Proof.
  intros Hget Hk.
  destruct (normalize_steps root0) as (root1 & _ & Hnorm). cbv zeta in Hnorm.
  rewrite Hnorm. eexists. split.
  - cbn [data_block_of]. by rewrite dict_get_set_eq.
  - rewrite strip_root_keys_other by done.
    by apply relocate_keeps, relocate_keeps, sync_fields_keep.
Qed.

Lemma core_field_not_header f :
  In f core_fields ->
  ~ In f ["spec"; "spec_version"; "data"]
  /\ ~ In (root_key_of f) ["spec"; "spec_version"; "data"].
Proof.
  intros Hf. cbn in Hf.
  repeat (destruct Hf as [<-|Hf];
          [split; vm_compute; intros H;
           repeat (destruct H as [H|H]; [discriminate H|]); destruct H|]).
  destruct Hf.
Qed.


(** X5.  Canonicalization never overwrites a value the document holds
    under [data]: apart from the header keys, every key of an existing
    [data] mapping keeps its value. *)
Theorem normalize_never_overwrites_data (root0 block0 : dict) (k : string) (v : value) :
  dict_get "data" root0 = Some (VDict block0) ->
  dict_get k block0 = Some v ->
  ~ In k ["spec"; "spec_version"; "data"] ->
  exists block,
    data_block_of (normalize_card_v3 (VDict root0)) = Some block
    /\ dict_get k block = Some v.
Proof.
  intros Hdata Hget Hk. apply normalize_keeps_block; [|done].
  unfold initial_block. by rewrite Hdata.
Qed.

Lemma normalize_never_overwrites_data_witness :
  exists block,
    data_block_of (normalize_card_v3 (VDict versioned_with_root_book)) = Some block
    /\ dict_get "name" block = Some (VStr "Inner").
Proof.
  apply (normalize_never_overwrites_data versioned_with_root_book
           [ ("name", VStr "Inner"); ("tags", VList []) ]).
  - reflexivity.
  - reflexivity.
  - cbn. intros H. repeat (destruct H as [H|H]; [discriminate H|]). destruct H.
Defined.

(** X6.  On a document without a [data] mapping every root field, the
    header keys apart, is copied under [data] with its value. *)
Theorem normalize_migrates_root_fields (root0 : dict) (k : string) (v : value) :
  data_block_of (VDict root0) = None ->
  dict_get k root0 = Some v ->
  ~ In k ["spec"; "spec_version"; "data"] ->
  exists block,
    data_block_of (normalize_card_v3 (VDict root0)) = Some block
    /\ dict_get k block = Some v.
Proof.
  intros Hlegacy Hget Hk. apply normalize_keeps_block; [|done].
  unfold initial_block. cbn [data_block_of] in Hlegacy.
  destruct (dict_get "data" root0) as [[| | | | | |blk]|];
    try discriminate Hlegacy; by rewrite strip_root_keys_other.
Qed.

Lemma normalize_migrates_root_fields_witness :
  exists block,
    data_block_of (normalize_card_v3 (VDict legacy_with_book)) = Some block
    /\ dict_get "creatorcomment" block = Some (VStr "hello").
Proof.
  apply (normalize_migrates_root_fields legacy_with_book).
  - reflexivity.
  - reflexivity.
  - cbn. intros H. repeat (destruct H as [H|H]; [discriminate H|]). destruct H.
Defined.

(** X7.  The result of canonicalizing a mapping: a [data] mapping, the
    version header, no [character_book] or [extensions] at the root, no
    header key inside [data], and every other root key as it was. *)
Theorem normalize_card_v3_result_shape (root0 : dict) :
  exists root block,
    normalize_card_v3 (VDict root0) = VDict root
    /\ dict_get "data" root = Some (VDict block)
    /\ dict_get "spec" root = Some (VStr "chara_card_v3")
    /\ dict_get "spec_version" root = Some (VStr "3.0")
    /\ dict_get "character_book" root = None
    /\ dict_get "extensions" root = None
    /\ dict_get "spec" block = None
    /\ dict_get "spec_version" block = None
    /\ dict_get "data" block = None
    /\ (forall k,
          ~ In k ["spec"; "spec_version"; "data"; "character_book"; "extensions"] ->
          dict_get k root = dict_get k root0).
Proof.
  destruct (normalize_steps root0) as (root1 & Hroot1 & Hnorm). cbv zeta in Hnorm.
  rewrite Hnorm. do 2 eexists. split; [reflexivity|].
  split; [apply dict_get_set_eq|].
  split.
  { rewrite dict_get_set_ne, !dict_get_del_ne by done.
    rewrite dict_get_set_ne by done. apply dict_get_set_eq. }
  split.
  { rewrite dict_get_set_ne, !dict_get_del_ne by done. apply dict_get_set_eq. }
  split.
  { rewrite dict_get_set_ne, dict_get_del_ne by done. apply dict_get_del_eq. }
  split.
  { rewrite dict_get_set_ne by done. apply dict_get_del_eq. }
  split; [apply strip_root_keys_get; cbn; tauto|].
  split; [apply strip_root_keys_get; cbn; tauto|].
  split; [apply strip_root_keys_get; cbn; tauto|].
  intros k Hk.
  assert (Hne : k <> "data" /\ k <> "character_book" /\ k <> "extensions"
                /\ ~ In k ["spec"; "spec_version"; "data"]).
  { cbn in Hk |- *. repeat split; try (intros ->; tauto). tauto. }
  destruct Hne as (H1 & H2 & H3 & H4).
  rewrite dict_get_set_ne, !dict_get_del_ne by done.
  by apply (root2_get root0 root1).
Qed.



(** X9.  A root-level [character_book] or [extensions] ends under
    [data]: the value [data] already had wins, otherwise the root value
    moves in, also when it is [null]. *)
Theorem normalize_relocates_to_data (root0 : dict) (k : string) (v : value) :
  In k ["character_book"; "extensions"] ->
  dict_get k root0 = Some v ->
  exists block,
    data_block_of (normalize_card_v3 (VDict root0)) = Some block
    /\ dict_get k block = Some (default v (dict_get k (initial_block root0))).
Proof.
  intros Hk Hroot.
  destruct (dict_get k (initial_block root0)) as [x|] eqn:Hinit.
  { cbn [default from_option]. apply normalize_keeps_block; [done|].
    cbn in Hk |- *. destruct Hk as [<-|[<-|[]]]; intros H;
      repeat (destruct H as [H|H]; [discriminate H|]); destruct H. }
  cbn [default from_option].
  destruct (normalize_steps root0) as (root1 & Hroot1 & Hnorm). cbv zeta in Hnorm.
  rewrite Hnorm. eexists. split.
  { cbn [data_block_of]. by rewrite dict_get_set_eq. }
  set (root2 := dict_set "spec_version" (VStr "3.0")
                  (dict_set "spec" (VStr "chara_card_v3") root1)) in *.
  set (block1 := fold_left (sync_field root2) core_fields (initial_block root0)).
  assert (Hcore : In k core_fields).
  { cbn in Hk |- *. destruct Hk as [<-|[<-|[]]]; tauto. }
  assert (Hhead : ~ In k ["spec"; "spec_version"; "data"])
    by apply (core_field_not_header k Hcore).
  assert (Hroot2 : dict_get k root2 = Some v).
  { unfold root2. by rewrite (root2_get root0 root1). }
  assert (Hself : root_key_of k = k).
  { cbn in Hk. by destruct Hk as [<-|[<-|[]]]. }
  assert (Hval : root_val root2 k = v).
  { unfold root_val. by rewrite Hself, Hroot2. }
  assert (Hb1 : default v (dict_get k block1) = v).
  { assert (v = VNone \/ v <> VNone) as [Hv|Hv]
      by (destruct v; auto; by right).
    - unfold block1. rewrite sync_fields_skip; [done | done | congruence].
    - unfold block1. rewrite sync_fields_fill; [by rewrite Hval | done | done |].
      by rewrite Hval. }
  rewrite strip_root_keys_other by done.
  cbn in Hk. destruct Hk as [<-|[<-|[]]].
  - apply relocate_keeps. rewrite (relocate_moves _ _ _ v) by done.
    by rewrite Hb1.
  - rewrite (relocate_moves _ _ _ v) by (by rewrite dict_get_del_ne).
    rewrite relocate_other by done. by rewrite Hb1.
Qed.

Lemma normalize_relocates_to_data_witness :
  exists block,
    data_block_of (normalize_card_v3 (VDict versioned_with_root_book)) = Some block
    /\ dict_get "character_book" block
       = Some (default VNone
                 (dict_get "character_book" (initial_block versioned_with_root_book))).
Proof.
  apply normalize_relocates_to_data.
  - cbn. tauto.
  - reflexivity.
Defined.

(** X10.  Whenever the field resolver finds world-info entries in a
    document, [get_wi_meta] flags the document as having world info. *)
Theorem get_wi_meta_flags_resolved_entries (card target x : value) (xs : list value) :
  Engine._get_field_value card (VStr "character_book") target = Ok (VList (x :: xs)) ->
  exists name, get_wi_meta card = Ok (1, name).
Proof.
  unfold Engine._get_field_value, get_wi_meta.
  cbn [truthy eq_str String.eqb Ascii.eqb Bool.eqb negb orb].
  destruct card as [| | | | | |d]; try discriminate.
  cbn [attr_get bind]. unfold get_or.
  destruct (dict_get "character_book" d) as [cb|] eqn:Hcb.
  2:{ cbn. destruct (eq_str target "wi_content"); [intros H; discriminate H|].
      destruct (eq_str target "wi_name"); intros H; discriminate H. }
  destruct cb as [| | | | | |book]; try discriminate.
  cbn [attr_get bind]. unfold get, get_or.
  destruct (dict_get "entries" book) as [entries|] eqn:He.
  2:{ cbn. destruct (eq_str target "wi_content"); [intros H; discriminate H|].
      destruct (eq_str target "wi_name"); intros H; discriminate H. }
  assert (Ht : truthy (VDict book) = true) by (by destruct book).
  rewrite Ht.
  destruct entries as [| | | | |l|es]; try (cbn; intros H; discriminate H).
  - destruct l as [|e l].
    + cbn. destruct (eq_str target "wi_content"); [intros H; discriminate H|].
      destruct (eq_str target "wi_name"); intros H; discriminate H.
    + intros _. cbn. eauto.
  - destruct es as [|e es].
    + cbn. destruct (eq_str target "wi_content"); [intros H; discriminate H|].
      destruct (eq_str target "wi_name"); intros H; discriminate H.
    + intros _. cbn. eauto.
Qed.

Lemma get_wi_meta_flags_resolved_entries_witness :
  exists name, get_wi_meta (VDict legacy_with_book) = Ok (1, name).
Proof.
  apply (get_wi_meta_flags_resolved_entries (VDict legacy_with_book)
           (VStr "wi_content") (VStr "c1") []).
  reflexivity.
Defined.

End CanonicalizerProperties.

(** ** Fingerprint and key order *)

Section FingerprintKeyOrder.
Import Data Spec Builtins Hash DataMore.
Implicit Types (k f : string) (v : value) (d root block : dict).

Lemma normalize_in_two_parts root0 :
  normalize_card_v3 (VDict root0) = normalize_finish (normalize_start root0).
Proof.
  unfold normalize_card_v3, normalize_finish, normalize_start.
  by destruct (dict_get "data" root0) as [[| | | | | |blk]|].
Qed.

Lemma dict_get_set k' k v d :
  dict_get k' (dict_set k v d) = if String.eqb k' k then Some v else dict_get k' d.
Proof.
  destruct (String.eqb_spec k' k) as [->|Hne];
    [apply dict_get_set_eq | by apply dict_get_set_ne].
Qed.

Lemma dict_get_del k' k d :
  dict_get k' (dict_del k d) = if String.eqb k' k then None else dict_get k' d.
Proof.
  destruct (String.eqb_spec k' k) as [->|Hne];
    [apply dict_get_del_eq | by apply dict_get_del_ne].
Qed.

Lemma same_bindings_set k v v' d d' :
  deterministic_sort v = deterministic_sort v' ->
  same_bindings d d' -> same_bindings (dict_set k v d) (dict_set k v' d').
Proof.
  intros Hv Hd k'. rewrite !dict_get_set.
  destruct (String.eqb k' k); [cbn; by rewrite Hv | apply Hd].
Qed.

Lemma same_bindings_del k d d' :
  same_bindings d d' -> same_bindings (dict_del k d) (dict_del k d').
Proof.
  intros Hd k'. rewrite !dict_get_del. destruct (String.eqb k' k); [done | apply Hd].
Qed.

Lemma same_bindings_mem k d d' :
  same_bindings d d' -> dict_mem k d = dict_mem k d'.
Proof.
  intros Hd. unfold dict_mem. specialize (Hd k).
  by destruct (dict_get k d), (dict_get k d').
Qed.

Lemma same_bindings_strip d d' :
  same_bindings d d' -> same_bindings (strip_root_keys d) (strip_root_keys d').
Proof.
  intros H. rewrite !strip_root_keys_del. by repeat apply same_bindings_del.
Qed.

Lemma sorted_None v v' :
  deterministic_sort v = deterministic_sort v' -> v = VNone -> v' = VNone.
Proof.
  intros H ->. by destruct v'.
Qed.

Lemma same_bindings_root_val root root' f :
  same_bindings root root' ->
  deterministic_sort (root_val root f) = deterministic_sort (root_val root' f).
Proof.
  intros H. unfold root_val, get, get_or.
  pose proof (H (root_key_of f)) as H1. pose proof (H f) as H2.
  destruct (dict_get (root_key_of f) root), (dict_get (root_key_of f) root');
    try discriminate H1; [by inversion H1|].
  destruct (dict_get f root), (dict_get f root'); try discriminate H2;
    [by inversion H2 | done].
Qed.

Lemma same_bindings_sync_field root root' block block' f :
  same_bindings root root' -> same_bindings block block' ->
  same_bindings (sync_field root block f) (sync_field root' block' f).
Proof.
  intros Hr Hb. unfold sync_field.
  rewrite (same_bindings_mem f block block') by done.
  destruct (dict_mem f block'); [done|].
  pose proof (same_bindings_root_val root root' f Hr) as Hv.
  destruct (root_val root f) eqn:E; destruct (root_val root' f) eqn:E';
    try done;
    try (by (apply (sorted_None _ VNone) in Hv || (symmetry in Hv; apply (sorted_None _ VNone) in Hv)));
    try (by apply same_bindings_set).
Qed.

Lemma same_bindings_sync_fields root root' fs : forall block block',
  same_bindings root root' -> same_bindings block block' ->
  same_bindings (fold_left (sync_field root) fs block)
                (fold_left (sync_field root') fs block').
Proof.
  induction fs as [|f fs IH]; intros block block' Hr Hb; [done|].
  cbn [fold_left]. apply IH; [done|]. by apply same_bindings_sync_field.
Qed.

Lemma same_bindings_relocate k root root' block block' :
  same_bindings root root' -> same_bindings block block' ->
  same_bindings (relocate k (root, block)).1 (relocate k (root', block')).1
  /\ same_bindings (relocate k (root, block)).2 (relocate k (root', block')).2.
Proof.
  intros Hr Hb. unfold relocate. pose proof (Hr k) as Hk.
  destruct (dict_get k root) as [v|], (dict_get k root') as [v'|];
    try discriminate Hk; cbn [fst snd]; [|done].
  split; [by apply same_bindings_del|].
  rewrite (same_bindings_mem k block block') by done.
  destruct (dict_mem k block'); [done|].
  apply same_bindings_set; [by inversion Hk | done].
Qed.

(** Mappings with unique keys have the same sorted form exactly when
    they have the same bindings. *)
Lemma sorted_VDict_iff d d' :
  NoDup (keys d) -> NoDup (keys d') ->
  deterministic_sort (VDict d) = deterministic_sort (VDict d')
  <-> same_bindings d d'.
Proof.
  intros Hnd Hnd'. rewrite !deterministic_sort_VDict. split.
  - intros H k. inversion H as [Heq].
    rewrite <- !dict_get_map_values.
    rewrite <- (reorder_get (map _ d)), <- (reorder_get (map _ d')).
    by rewrite Heq.
  - intros H. f_equal. apply reorder_ext.
    + intros k. rewrite !dict_get_map_values. apply H.
    + rewrite !keys_map_values. apply sorted_Permutation.
      apply keys_Permutation; [done..|].
      intros k. specialize (H k).
      destruct (dict_get k d), (dict_get k d'); try discriminate H; done.
Qed.

Lemma sorted_VDict_of_bindings d d' :
  wf_dict d -> wf_dict d' -> same_bindings d d' ->
  deterministic_sort (VDict d) = deterministic_sort (VDict d').
Proof. intros [H _] [H' _] Hs. by apply sorted_VDict_iff. Qed.

Lemma normalize_copy_related d d' :
  wf_dict d -> wf_dict d' -> same_bindings d d' ->
  wf_dict (dict_set "data" (VDict (strip_root_keys d)) d)
  /\ wf_dict (dict_set "data" (VDict (strip_root_keys d')) d')
  /\ wf_dict (strip_root_keys d) /\ wf_dict (strip_root_keys d')
  /\ same_bindings (dict_set "data" (VDict (strip_root_keys d)) d)
                   (dict_set "data" (VDict (strip_root_keys d')) d')
  /\ same_bindings (strip_root_keys d) (strip_root_keys d').
Proof.
  intros Hw Hw' Hs.
  pose proof (wf_strip_root_keys d Hw) as Hc.
  pose proof (wf_strip_root_keys d' Hw') as Hc'.
  pose proof (same_bindings_strip d d' Hs) as Hsc.
  split_and!; try done.
  - apply wf_dict_set; [done | by apply wf_VDict].
  - apply wf_dict_set; [done | by apply wf_VDict].
  - apply same_bindings_set; [|done]. by apply sorted_VDict_of_bindings.
Qed.

Lemma normalize_start_related d d' :
  wf_dict d -> wf_dict d' -> same_bindings d d' ->
  wf_dict (normalize_start d).1 /\ wf_dict (normalize_start d').1
  /\ wf_dict (normalize_start d).2 /\ wf_dict (normalize_start d').2
  /\ same_bindings (normalize_start d).1 (normalize_start d').1
  /\ same_bindings (normalize_start d).2 (normalize_start d').2.
Proof.
  intros Hw Hw' Hs. unfold normalize_start.
  pose proof (normalize_copy_related d d' Hw Hw' Hs) as Hcopy.
  pose proof (Hs "data") as Hdata.
  destruct (dict_get "data" d) as [x|] eqn:E, (dict_get "data" d') as [y|] eqn:E';
    try discriminate Hdata; [|exact Hcopy].
  cbn in Hdata. injection Hdata as Hxy.
  destruct x as [| | | | | |blk], y as [| | | | | |blk'];
    try discriminate Hxy; try exact Hcopy.
  cbn [fst snd].
  assert (Hb : wf_dict blk) by (apply wf_VDict; exact (wf_dict_get _ _ _ Hw E)).
  assert (Hb' : wf_dict blk') by (apply wf_VDict; exact (wf_dict_get _ _ _ Hw' E')).
  split_and!; try done.
  apply sorted_VDict_iff; [apply Hb | apply Hb' | done].
Qed.

Lemma normalize_finish_related root root' block block' :
  wf_dict root -> wf_dict root' -> wf_dict block -> wf_dict block' ->
  same_bindings root root' -> same_bindings block block' ->
  deterministic_sort (normalize_finish (root, block))
  = deterministic_sort (normalize_finish (root', block')).
Proof.
  intros Hr Hr' Hb Hb' Sr Sb. unfold normalize_finish.
  set (root2 := dict_set "spec_version" _ (dict_set "spec" _ root)).
  set (root2' := dict_set "spec_version" _ (dict_set "spec" _ root')).
  assert (H2 : wf_dict root2) by (by repeat apply wf_dict_set).
  assert (H2' : wf_dict root2') by (by repeat apply wf_dict_set).
  assert (S2 : same_bindings root2 root2') by (by repeat apply same_bindings_set).
  pose proof (wf_sync_fields root2 core_fields block H2 Hb) as H1.
  pose proof (wf_sync_fields root2' core_fields block' H2' Hb') as H1'.
  pose proof (same_bindings_sync_fields root2 root2' core_fields block block' S2 Sb) as S1.
  set (block1 := fold_left (sync_field root2) core_fields block) in *.
  set (block1' := fold_left (sync_field root2') core_fields block') in *.
  destruct (wf_relocate "character_book" root2 block1 H2 H1) as [H3 Hb2].
  destruct (wf_relocate "character_book" root2' block1' H2' H1') as [H3' Hb2'].
  destruct (same_bindings_relocate "character_book" root2 root2' block1 block1' S2 S1)
    as [S3 Sb2].
  destruct (relocate "character_book" (root2, block1)) as [root3 block2].
  destruct (relocate "character_book" (root2', block1')) as [root3' block2'].
  cbn [fst snd] in *.
  destruct (wf_relocate "extensions" root3 block2 H3 Hb2) as [H4 Hb3].
  destruct (wf_relocate "extensions" root3' block2' H3' Hb2') as [H4' Hb3'].
  destruct (same_bindings_relocate "extensions" root3 root3' block2 block2' S3 Sb2)
    as [S4 Sb3].
  destruct (relocate "extensions" (root3, block2)) as [root4 block3].
  destruct (relocate "extensions" (root3', block2')) as [root4' block3'].
  cbn [fst snd] in *.
  pose proof (wf_strip_root_keys block3 Hb3) as Hb4.
  pose proof (wf_strip_root_keys block3' Hb3') as Hb4'.
  pose proof (same_bindings_strip block3 block3' Sb3) as Sb4.
  apply sorted_VDict_of_bindings.
  - apply wf_dict_set; [done | by apply wf_VDict].
  - apply wf_dict_set; [done | by apply wf_VDict].
  - apply same_bindings_set; [|done]. by apply sorted_VDict_of_bindings.
Qed.

(** Canonicalization respects content: mappings with the same
    bindings have canonical forms with the same sorted form. *)
Lemma normalize_related d d' :
  wf_dict d -> wf_dict d' -> same_bindings d d' ->
  deterministic_sort (normalize_card_v3 (VDict d))
  = deterministic_sort (normalize_card_v3 (VDict d')).
Proof.
  intros Hw Hw' Hs. rewrite !normalize_in_two_parts.
  destruct (normalize_start_related d d' Hw Hw' Hs) as (H1 & H2 & H3 & H4 & H5 & H6).
  destruct (normalize_start d) as [r b], (normalize_start d') as [r' b'].
  by apply normalize_finish_related.
Qed.

Lemma same_eq_str a b s :
  same_up_to_key_order a b = true -> eq_str a s = eq_str b s.
Proof.
  destruct a, b; try discriminate; try done.
  cbn. intros H. apply String.eqb_eq in H. by subst.
Qed.

Lemma same_list_existsb l l' :
  Forall2 (fun x y => same_up_to_key_order x y = true) l l' ->
  forall s, existsb (fun x => eq_str x s) l = existsb (fun x => eq_str x s) l'.
Proof.
  intros H s. induction H as [|x y l l' Hxy _ IH]; [done|].
  cbn [existsb]. by rewrite (same_eq_str x y s Hxy), IH.
Qed.

End FingerprintKeyOrder.

Section FingerprintDigest.
Import Data Spec Builtins Hash DataMore HashMore.
Context {IP : Interpreter}.

Lemma _calculate_data_hash_prepared (now : string) (v : value) :
  _calculate_data_hash now v
  = if negb (truthy v) then Hex EmptyString
    else match prepared v with
         | Raise _ => Timestamp now
         | Ok v' =>
             if serializes v'
             then Hex (Md5.hexdigest (Md5.encode (json_dumps (deterministic_sort v'))))
             else Timestamp now
         end.
Proof. reflexivity. Qed.

(** Documents with the same content are both empty or both not, and
    what goes into the sort has the same sorted form. *)
Lemma prepared_related (a b : value) :
  wf a = true -> wf b = true ->
  same_up_to_key_order a b = true ->
  truthy a = truthy b
  /\ match prepared a, prepared b with
     | Ok a', Ok b' => deterministic_sort a' = deterministic_sort b'
     | Raise _, Raise _ => True
     | _, _ => False
     end.
Proof.
  intros Ha Hb Hsame.
  pose proof (deterministic_sort_canonical a b Ha Hb Hsame) as Hsort.
  destruct a as [| x | x | x | x | l | d], b as [| y | y | y | y | l' | d'];
    try discriminate Hsame.
  - done.
  - cbn in Hsame. apply Bool.eqb_prop in Hsame. by subst.
  - cbn in Hsame. apply Z.eqb_eq in Hsame. by subst.
  - cbn in Hsame. apply String.eqb_eq in Hsame. by subst.
  - cbn in Hsame. apply String.eqb_eq in Hsame. subst. split; [done|].
    by destruct (prepared (VStr y)).
  - apply same_VList in Hsame.
    split; [by destruct Hsame|].
    pose proof (same_list_existsb l l' Hsame) as Hin.
    unfold prepared. cbn [str_in_value bind]. rewrite !Hin.
    destruct (existsb _ l'); cbn [bind normalize_card_v3]; [exact Hsort|].
    destruct (existsb _ l'); exact Hsort.
  - pose proof Ha as Hwa. pose proof Hb as Hwb.
    apply wf_VDict in Hwa, Hwb.
    assert (Hbind : same_bindings d d').
    { apply sorted_VDict_iff; [apply Hwa | apply Hwb | exact Hsort]. }
    apply same_VDict in Hsame as [Hlen _].
    split.
    { clear -Hlen. destruct d, d'; try reflexivity; discriminate Hlen. }
    unfold prepared. cbn [str_in_value bind].
    rewrite !(same_bindings_mem _ d d' Hbind).
    destruct (dict_mem "name" d'); cbn [bind].
    + rewrite (normalize_related d d' Hwa Hwb Hbind). reflexivity.
    + destruct (dict_mem "data" d').
      * rewrite (normalize_related d d' Hwa Hwb Hbind). reflexivity.
      * exact Hsort.
Qed.

(** X11.  The digest does not depend on the order of keys, nor on the
    clock: when two well-formed documents with the same content,
    whatever the order of the keys at any depth, both get a digest
    (neither call ends in the fallback), it is the same digest. *)
Theorem fingerprint_ignores_key_order (now1 now2 : string) (a b : value)
    (h1 h2 : string) :
  wf a = true -> wf b = true ->
  same_up_to_key_order a b = true ->
  _calculate_data_hash now1 a = Hex h1 ->
  _calculate_data_hash now2 b = Hex h2 ->
  h1 = h2.
Proof.
  intros Ha Hb Hsame.
  destruct (prepared_related a b Ha Hb Hsame) as [Ht Hprep].
  rewrite !_calculate_data_hash_prepared, Ht.
  destruct (truthy b); cbn [negb]; [|congruence].
  destruct (prepared a) as [a'|ea], (prepared b) as [b'|eb];
    try done.
  rewrite Hprep.
  destruct (serializes a'), (serializes b'); try done. congruence.
Qed.

End FingerprintDigest.

Section FingerprintDigestExamples.
Import Data Spec Builtins Hash DataMore HashMore.

Lemma fingerprint_ignores_key_order_witness :
  exists h1 h2 : string,
    @_calculate_data_hash example_interpreter "1.5" doc_in_order = Hex h1
    /\ @_calculate_data_hash example_interpreter "2.5" doc_shuffled = Hex h2
    /\ h1 = h2.
Proof.
  eexists _, _.
  split; [vm_compute; reflexivity|]. split; [vm_compute; reflexivity|].
  apply (@fingerprint_ignores_key_order example_interpreter "1.5" "2.5"
           doc_in_order doc_shuffled);
    vm_compute; reflexivity.
Defined.

End FingerprintDigestExamples.

(** ** Condition evaluator and field resolver, further *)

Section ConditionProperties.
Import Builtins Constants Engine Spec EngineMore.
Context {RT : Runtime}.
Implicit Types (v target case : value).

(** X14.  [exists] and [not_exists] are exact complements, for every
    value, target and case flag. *)
Theorem exists_not_exists_complement v target case :
  _check_condition v (VStr OP_NOT_EXISTS) target case
  = negb (_check_condition v (VStr OP_EXISTS) target case).
Proof.
  unfold _check_condition, check_body. cbn.
  by destruct v as [| | | | [|? ?] | [|? ?] |].
Qed.

(** X15.  On a null value every operator gives false except
    [not_exists], which gives true. *)
Theorem check_condition_on_null (op target case : value) :
  _check_condition VNone op target case = eq_str op OP_NOT_EXISTS.
Proof.
  unfold _check_condition, check_body.
  destruct (eq_str op OP_EXISTS) eqn:E1.
  - destruct op; try discriminate. cbn in E1. apply String.eqb_eq in E1. by subst.
  - by destruct (eq_str op OP_NOT_EXISTS).
Qed.

Lemma check_body_text v op target case :
  eq_str op OP_EXISTS = false -> eq_str op OP_NOT_EXISTS = false ->
  is_none v = false ->
  eq_str op OP_GT = false -> eq_str op OP_LT = false ->
  eq_str op OP_TRUE = false -> eq_str op OP_FALSE = false ->
  check_body v op target case
  = (let fold_case := negb (truthy case) && negb (eq_str op OP_REGEX) in
     let val_str := if fold_case then PyStr.lower (py_str v) else py_str v in
     let tgt_str := if fold_case then PyStr.lower (py_str target)
                    else py_str target in
     if eq_str op OP_EQ then
       match v with
       | VList items =>
           do has_comma <- str_in_value "," target;
           do target_list <-
             (if has_comma then
                match target with
                | VStr t =>
                    Ok (map (fun t => PyStr.lower (PyStr.strip t))
                          (PyStr.split ","%char t))
                | _ => Raise AttributeError
                end
              else Ok [tgt_str]);
           let value_list := map (fun v => PyStr.lower (py_str v)) items in
           Ok (bool_decide (PyStr.sorted value_list = PyStr.sorted target_list))
       | _ => Ok (String.eqb val_str tgt_str)
       end
     else if eq_str op OP_NEQ then Ok (negb (String.eqb val_str tgt_str))
     else if eq_str op OP_CONTAINS then
       match v with
       | VList items =>
           if negb (truthy case) then
             Ok (existsb (fun v => String.eqb tgt_str (PyStr.lower (py_str v))) items)
           else
             Ok (existsb (fun v => String.eqb (py_str target) (py_str v)) items)
       | _ => Ok (PyStr.contains tgt_str val_str)
       end
     else if eq_str op OP_NOT_CONTAINS then
       match v with
       | VList items =>
           if negb (truthy case) then
             Ok (negb (existsb (fun v => String.eqb (PyStr.lower (py_str v)) tgt_str) items))
           else
             Ok (negb (existsb (fun v => String.eqb (py_str v) (py_str target)) items))
       | _ => Ok (negb (PyStr.contains tgt_str val_str))
       end
     else if eq_str op OP_REGEX then
       match target with
       | VStr pattern =>
           match re_search pattern (py_str v) (negb (truthy case)) with
           | Some found => Ok found
           | None => Raise TypeError
           end
       | _ => Raise TypeError
       end
     else Ok false).
Proof.
  intros H1 H2 H3 H4 H5 H6 H7. unfold check_body.
  rewrite H1, H2, H3, H4, H5, H6, H7. reflexivity.
Qed.

Lemma existsb_pointwise {A : Type} (f g : A -> bool) (l : list A) :
  (forall x, f x = g x) -> existsb f l = existsb g l.
Proof. intros H. induction l as [|x l IH]; [done|]. cbn. by rewrite H, IH. Qed.

(** X16.  On a value that is not null, [is_false] is the negation of
    [is_true], [not_contains] the negation of [contains], and, when the
    value is not a list, [neq] the negation of [eq]. *)
Theorem negated_operators v target case :
  v <> VNone ->
  _check_condition v (VStr OP_FALSE) target case
  = negb (_check_condition v (VStr OP_TRUE) target case)
  /\ _check_condition v (VStr OP_NOT_CONTAINS) target case
     = negb (_check_condition v (VStr OP_CONTAINS) target case)
  /\ (match v with VList _ => False | _ => True end ->
      _check_condition v (VStr OP_NEQ) target case
      = negb (_check_condition v (VStr OP_EQ) target case)).
Proof.
  intros Hv.
  assert (Hn : is_none v = false) by (by destruct v).
  split; [|split].
  - unfold _check_condition, check_body. cbn [eq_str OP_EXISTS OP_NOT_EXISTS
      OP_GT OP_LT OP_TRUE OP_FALSE String.eqb Ascii.eqb Bool.eqb orb].
    by rewrite Hn.
  - unfold _check_condition. rewrite !check_body_text by done.
    cbn [eq_str OP_EQ OP_NEQ OP_CONTAINS OP_NOT_CONTAINS OP_REGEX
         String.eqb Ascii.eqb Bool.eqb andb negb].
    destruct v as [| | | | | items |]; try done.
    destruct (truthy case); cbn [negb]; f_equal;
      apply existsb_pointwise; intros x; apply String.eqb_sym.
  - intros Hl. unfold _check_condition. rewrite !check_body_text by done.
    cbn [eq_str OP_EQ OP_NEQ OP_CONTAINS OP_NOT_CONTAINS OP_REGEX
         String.eqb Ascii.eqb Bool.eqb andb negb].
    by destruct v.
Qed.

(** X17.  The evaluator fails closed: an operator that is none of the
    eleven known ones gives false on every value, and so does [regex]
    when the pattern does not compile or the target is not a string,
    and [gt] or [lt] when [float] rejects the value or the target. *)
Theorem check_condition_fails_closed v target case :
  (forall op,
     existsb (eq_str op)
       [ OP_EQ; OP_NEQ; OP_CONTAINS; OP_NOT_CONTAINS; OP_REGEX; OP_EXISTS;
         OP_NOT_EXISTS; OP_GT; OP_LT; OP_TRUE; OP_FALSE ] = false ->
     _check_condition v op target case = false)
  /\ ((forall pattern, target = VStr pattern ->
         re_search pattern (py_str v) (negb (truthy case)) = None) ->
      _check_condition v (VStr OP_REGEX) target case = false)
  /\ (py_float v = None \/ py_float target = None ->
      _check_condition v (VStr OP_GT) target case = false
      /\ _check_condition v (VStr OP_LT) target case = false).
Proof.
  split; [|split].
  - intros op Hop. cbn [existsb] in Hop.
    repeat (apply orb_false_iff in Hop as [? Hop]).
    unfold _check_condition, check_body.
    repeat match goal with H : eq_str op _ = false |- _ => rewrite H; clear H end.
    cbn [orb]. by destruct (is_none v).
  - intros Hre. unfold _check_condition, check_body.
    cbn [eq_str OP_EQ OP_NEQ OP_CONTAINS OP_NOT_CONTAINS OP_REGEX OP_EXISTS
         OP_NOT_EXISTS OP_GT OP_LT OP_TRUE OP_FALSE
         String.eqb Ascii.eqb Bool.eqb orb andb negb].
    destruct (is_none v); [done|].
    destruct target as [| | | | pattern | |]; try done.
    by rewrite (Hre pattern).
  - intros Hfloat. unfold _check_condition, check_body.
    cbn [eq_str OP_EXISTS OP_NOT_EXISTS OP_GT OP_LT
         String.eqb Ascii.eqb Bool.eqb orb].
    destruct (is_none v); [done|].
    destruct Hfloat as [-> | Ht]; [done|].
    rewrite Ht. by destruct (py_float v).
Qed.

End ConditionProperties.

Section ConditionExamples.
Import Builtins Constants Engine Spec EngineMore.

Lemma negated_operators_witness :
  @_check_condition example_runtime (VStr "Foobar") (VStr OP_FALSE) (VStr "foo") VNone
  = negb (@_check_condition example_runtime (VStr "Foobar") (VStr OP_TRUE) (VStr "foo") VNone)
  /\ @_check_condition example_runtime (VStr "Foobar") (VStr OP_NOT_CONTAINS) (VStr "foo") VNone
     = negb (@_check_condition example_runtime (VStr "Foobar") (VStr OP_CONTAINS) (VStr "foo") VNone)
  /\ (True ->
      @_check_condition example_runtime (VStr "Foobar") (VStr OP_NEQ) (VStr "foo") VNone
      = negb (@_check_condition example_runtime (VStr "Foobar") (VStr OP_EQ) (VStr "foo") VNone)).
Proof.
  apply (@negated_operators example_runtime (VStr "Foobar") (VStr "foo") VNone).
  discriminate.
Defined.

End ConditionExamples.

Section ResolverProperties.
Import Builtins Constants Engine Spec EngineMore.
Implicit Types (card target : value) (l : list value).

Lemma str_fields_is_str_list k l : is_str_list (str_fields k l) = true.
Proof.
  unfold str_fields. cbn [is_str_list]. by induction (dicts_of l).
Qed.

Lemma is_str_list_map {A : Type} (f : A -> string) (xs : list A) :
  is_str_list (VList (map (fun x => VStr (f x)) xs)) = true.
Proof. cbn [is_str_list]. by induction xs. Qed.

(** X18.  For the six collection fields ([wi_name], [wi_content],
    [regex_name], [regex_content], [st_script_name],
    [st_script_content]) the resolver, whenever it returns, returns a
    list of strings. *)
Theorem collection_fields_resolve_to_strings card (raw : string)
    (mapped v : value) :
  In raw collection_fields ->
  map_field (VStr raw) = Ok mapped ->
  _get_field_value card mapped (VStr raw) = Ok v ->
  is_str_list v = true.
Proof.
  intros Hraw Hmap. cbn in Hraw.
  assert (Hlist : forall r : result value,
            r = Ok v ->
            (forall x, r = Ok x -> is_str_list x = true) -> is_str_list v = true)
    by (intros r Hr H; by apply H).
  destruct Hraw as [<-|[<-|[<-|[<-|[<-|[<-|[]]]]]]];
    cbn in Hmap; injection Hmap as <-;
    unfold _get_field_value;
    cbn [truthy eq_str String.eqb Ascii.eqb Bool.eqb negb orb];
    destruct (attr_get card _ _) as [o1|]; cbn [bind]; try discriminate;
    destruct (attr_get o1 _ _) as [o2|]; cbn [bind]; try discriminate.
  - destruct o2 as [| | | | | l | es]; intros [= <-]; try done;
      apply str_fields_is_str_list.
  - destruct o2 as [| | | | | l | es]; intros [= <-]; try done;
      apply str_fields_is_str_list.
  - destruct (truthy o2); cbn [negb bind].
    + destruct o2 as [| | | | | l |]; intros [= <-]; try done;
        apply str_fields_is_str_list.
    + destruct (attr_get card _ _) as [o3|]; cbn [bind]; try discriminate.
      destruct o3 as [| | | | | l |]; intros [= <-]; try done;
        apply str_fields_is_str_list.
  - destruct (truthy o2); cbn [negb bind].
    + destruct o2 as [| | | | | l |]; intros [= <-]; try done.
      apply (is_str_list_map
               (fun d => py_str (py_or (py_or (get "findRegex" d) (get "regex" d))
                                   (VStr EmptyString)))).
    + destruct (attr_get card _ _) as [o3|]; cbn [bind]; try discriminate.
      destruct o3 as [| | | | | l |]; intros [= <-]; try done.
      apply (is_str_list_map
               (fun d => py_str (py_or (py_or (get "findRegex" d) (get "regex" d))
                                   (VStr EmptyString)))).
  - destruct o2 as [| | | | | items |]; try (intros [= <-]; done).
    destruct (find_scripts items); intros [= <-]; [done|].
    apply str_fields_is_str_list.
  - destruct o2 as [| | | | | items |]; try (intros [= <-]; done).
    destruct (find_scripts items); intros [= <-]; [done|].
    apply str_fields_is_str_list.
Qed.

Lemma collection_fields_resolve_to_strings_witness :
  is_str_list (VList [VStr "s1"; VStr "s2"]) = true.
Proof.
  apply (collection_fields_resolve_to_strings (VDict helper_card)
           "st_script_name" (VStr "extensions.tavern_helper")); [|reflexivity..].
  cbn. tauto.
Defined.

(** X19.  World-info entries given as a mapping resolve like the list
    of the values of that mapping. *)
Theorem entries_mapping_resolves_like_list (root book es : dict) target :
  dict_get "character_book" root = Some (VDict book) ->
  dict_get "entries" book = Some (VDict es) ->
  _get_field_value (VDict root) (VStr "character_book") target
  = _get_field_value
      (VDict (dict_set "character_book"
                (VDict (dict_set "entries" (VList (values es)) book)) root))
      (VStr "character_book") target.
Proof.
  intros Hbook Hentries. unfold _get_field_value.
  cbn [truthy eq_str String.eqb Ascii.eqb Bool.eqb negb orb attr_get bind].
  unfold get_or. rewrite Hbook, dict_get_set_eq.
  cbn [attr_get bind]. unfold get_or. by rewrite Hentries, dict_get_set_eq.
Qed.

Lemma entries_mapping_resolves_like_list_witness :
  _get_field_value (VDict book_card) (VStr "character_book") (VStr "wi_content")
  = _get_field_value
      (VDict (dict_set "character_book"
                (VDict (dict_set "entries"
                          (VList (values
                                    [ ("0", VDict [("content", VStr "c0"); ("comment", VStr "n0")]);
                                      ("1", VDict [("content", VStr "c1")]) ]))
                          [ ("entries",
                             VDict [ ("0", VDict [("content", VStr "c0"); ("comment", VStr "n0")]);
                                     ("1", VDict [("content", VStr "c1")]) ]) ]))
                book_card))
      (VStr "character_book") (VStr "wi_content").
Proof. apply entries_mapping_resolves_like_list; reflexivity. Defined.

Lemma find_scripts_skips pre : forall rest,
  forallb (fun item => negb (is_scripts_pair item)) pre = true ->
  find_scripts (pre ++ rest) = find_scripts rest.
Proof.
  induction pre as [|item pre IH]; intros rest H; [done|].
  cbn [forallb] in H. apply andb_true_iff in H as [Hitem Hpre].
  cbn [app find_scripts].
  destruct item as [| | | | | [|label [|payload more]] |]; try by apply IH.
  cbn in Hitem. apply negb_true_iff in Hitem. rewrite Hitem. by apply IH.
Qed.

(** X20.  The helper-script list is found by its label, wherever the
    pair stands: items before it that are not a ["scripts"] pair are
    skipped and items after it are not looked at. *)
Theorem helper_scripts_found_by_label (root ext : dict)
    (pre post more scripts : list value) target :
  dict_get "extensions" root = Some (VDict ext) ->
  dict_get "tavern_helper" ext
  = Some (VList (pre ++ VList (VStr "scripts" :: VList scripts :: more) :: post)) ->
  forallb (fun item => negb (is_scripts_pair item)) pre = true ->
  _get_field_value (VDict root) (VStr "extensions.tavern_helper") target
  = Ok (str_fields (if eq_str target "st_script_content" then "content" else "name")
          scripts).
Proof.
  intros Hext Hhelper Hpre. unfold _get_field_value.
  cbn [truthy eq_str String.eqb Ascii.eqb Bool.eqb negb orb attr_get bind].
  unfold get_or. rewrite Hext. cbn [attr_get bind]. unfold get_or.
  rewrite Hhelper. rewrite find_scripts_skips by done.
  cbn [find_scripts eq_str String.eqb Ascii.eqb Bool.eqb].
  fold (eq_str target "st_script_content").
  by destruct scripts, (eq_str target "st_script_content").
Qed.

Lemma helper_scripts_found_by_label_witness :
  _get_field_value (VDict helper_card) (VStr "extensions.tavern_helper")
    (VStr "st_script_content")
  = Ok (str_fields
          (if eq_str (VStr "st_script_content") "st_script_content"
           then "content" else "name")
          [ VDict [("name", VStr "s1"); ("content", VStr "c1")];
            VInt 3;
            VDict [("name", VStr "s2")] ]).
Proof.
  apply (helper_scripts_found_by_label helper_card
           [ ("tavern_helper",
              VList [ VList [VStr "variables"; VDict []];
                      VStr "noise";
                      VList [ VStr "scripts";
                              VList [ VDict [("name", VStr "s1"); ("content", VStr "c1")];
                                      VInt 3;
                                      VDict [("name", VStr "s2")] ] ] ]) ]
           [ VList [VStr "variables"; VDict []]; VStr "noise" ] [] []);
    reflexivity.
Defined.

End ResolverProperties.

(** ** Rule engine, further *)

Section RuleEngineProperties.
Import Builtins Constants Engine Spec EngineMore.
Context {RT : Runtime}.
Implicit Types (card rule : value) (r g : dict) (rules acts : list value).

Lemma precompute_twice card card' :
  precompute card = Ok card' -> precompute card' = Ok card'.
Proof.
  unfold precompute. destruct card as [| | | | | |d]; try discriminate.
  cbn [attr_get bind].
  destruct (truthy (get_or "character_book" VNone d)) eqn:Ht;
    [|intros [= <-]; cbn [attr_get bind]; by rewrite Ht].
  destruct (attr_get _ "entries" _) as [entries0|e] eqn:He; [|discriminate].
  cbn [bind].
  assert (Hsame : forall s,
            get_or "character_book" VNone
              (dict_set "character_book_content" (VStr s) d)
            = get_or "character_book" VNone d).
  { intros s. unfold get_or. by rewrite dict_get_set_ne. }
  destruct entries0 as [| | | | | l | es]; intros [= <-]; cbn [attr_get bind];
    rewrite ?Hsame, Ht, He; cbn [bind]; try done;
    by rewrite dict_set_set.
Qed.

(** X21.  Evaluating a card a second time gives what the first
    evaluation gave: the same plan or exception, and the card as the
    first evaluation left it. *)
Theorem evaluate_twice (st : store) :
  evaluate (evaluate st).1 = evaluate st.
Proof.
  unfold evaluate.
  destruct (precompute (card_data st)) as [card'|e] eqn:E; cbn [fst].
  - cbn [card_data ruleset]. by rewrite (precompute_twice _ _ E).
  - by rewrite E.
Qed.

(** X22.  A rule with bare [conditions] and no groups is evaluated
    like the rule with those conditions in one group of logic AND. *)
Theorem legacy_conditions_as_one_group card r :
  truthy (get_or "groups" (VList []) r) = false ->
  truthy (get "conditions" r) = true ->
  eval_rule card (VDict r)
  = eval_rule card
      (VDict (dict_set "groups"
                (VList [ VDict [ ("logic", VStr "AND");
                                 ("conditions", get "conditions" r) ] ]) r)).
Proof.
  intros Hg Hc. unfold eval_rule. cbn [attr_get bind].
  assert (Hother : forall k dflt, k <> "groups" ->
            get_or k dflt (dict_set "groups"
                             (VList [ VDict [ ("logic", VStr "AND");
                                              ("conditions", get "conditions" r) ] ]) r)
            = get_or k dflt r).
  { intros k dflt Hk. unfold get_or. by rewrite dict_get_set_ne. }
  rewrite (Hother "enabled") by done.
  destruct (truthy (get_or "enabled" (VBool true) r)); cbn [negb]; [|done].
  assert (Hnorm : normalized_groups r
                  = VList [ VDict [ ("logic", VStr "AND");
                                    ("conditions", get "conditions" r) ] ]).
  { unfold normalized_groups. rewrite Hg, Hc. cbn [negb andb].
    unfold get, get_or in *. by destruct (dict_get "conditions" r). }
  assert (Hnorm' : normalized_groups
                     (dict_set "groups"
                        (VList [ VDict [ ("logic", VStr "AND");
                                         ("conditions", get "conditions" r) ] ]) r)
                   = VList [ VDict [ ("logic", VStr "AND");
                                     ("conditions", get "conditions" r) ] ]).
  { unfold normalized_groups, get_or. by rewrite dict_get_set_eq. }
  rewrite Hnorm, Hnorm'.
  rewrite (Hother "logic"), (Hother "actions") by done.
  unfold get. by rewrite (Hother "stop_on_match") by done.
Qed.



Lemma for_each_In {A B : Type} (f : A -> result B) (l : list A) : forall ys x,
  for_each f l = Ok ys -> In x l -> exists y, f x = Ok y /\ In y ys.
Proof.
  induction l as [|a l IH]; intros ys x H Hin; [done|].
  cbn [for_each] in H.
  destruct (f a) as [y|] eqn:Ha; cbn [bind] in H; [|discriminate].
  destruct (for_each f l) as [ys'|] eqn:Hl; cbn [bind] in H; [|discriminate].
  injection H as <-. destruct Hin as [->|Hin].
  - exists y. split; [done | by left].
  - destruct (IH ys' x eq_refl Hin) as (y' & Hy' & Hin'). exists y'.
    split; [done | by right].
Qed.

Lemma all_false (results : list bool) : In false results -> all results = false.
Proof.
  unfold all. intros H. apply not_true_is_false. intros Hall.
  rewrite forallb_forall in Hall. by specialize (Hall false H).
Qed.

(** X24.  A rule of logic AND that has a group without conditions
    among its groups never matches. *)
Theorem and_rule_with_empty_group_never_matches card r g (groups : list value)
    acts stop :
  py_iter (normalized_groups r) = Ok groups ->
  In (VDict g) groups ->
  truthy (get_or "conditions" (VList []) g) = false ->
  upper_of (get_or "logic" (VStr "OR") r) = Ok "AND" ->
  eval_rule card (VDict r) <> Ok (Matched acts stop).
Proof.
  intros Hiter Hin Hempty Hlogic. unfold eval_rule. cbn [attr_get bind].
  destruct (truthy (get_or "enabled" (VBool true) r)); cbn [negb]; [|done].
  destruct (truthy (normalized_groups r)); cbn [negb]; [|done].
  rewrite Hlogic, Hiter. cbn [bind].
  destruct (for_each (eval_group card) groups) as [results|] eqn:Hres;
    cbn [bind]; [|done].
  destruct (for_each_In _ _ _ _ Hres Hin) as (b & Hb & Hbin).
  assert (b = false) as ->.
  { destruct b; [|done]. by apply eval_group_empty_never_true in Hb. }
  cbn [String.eqb Ascii.eqb Bool.eqb]. by rewrite (all_false results Hbin).
Qed.

End RuleEngineProperties.

Section RuleEngineMoreExamples.
Import Builtins Constants Engine Spec EngineMore.

Lemma legacy_conditions_as_one_group_witness :
  @eval_rule example_runtime example_card (VDict legacy_rule)
  = @eval_rule example_runtime example_card
      (VDict (dict_set "groups"
                (VList [ VDict [ ("logic", VStr "AND");
                                 ("conditions", get "conditions" legacy_rule) ] ])
                legacy_rule)).
Proof.
  apply (@legacy_conditions_as_one_group example_runtime); reflexivity.
Defined.


Lemma and_rule_with_empty_group_never_matches_witness :
  @eval_rule example_runtime example_card (VDict and_rule_with_empty_group)
  <> Ok (Matched [tag_action "never"] false).
Proof.
  apply (@and_rule_with_empty_group_never_matches example_runtime
           example_card and_rule_with_empty_group
           [("conditions", VList [])]
           [ VDict [("conditions", VList [tags_condition])];
             VDict [("conditions", VList [])] ]).
  - reflexivity.
  - cbn. tauto.
  - reflexivity.
  - reflexivity.
Defined.

End RuleEngineMoreExamples.

(** ** File signature, further *)

Section FileSignatureProperties.
Import Hash Spec HashMore.

(** The sampled branch: what is hashed for a file of more than
    [2 * SAMPLE] bytes. *)
Lemma get_file_hash_and_size_large (fs : filesystem) (file_path : string)
    (bytes : list Byte.byte) :
  fs file_path = Some bytes ->
  (SAMPLE * 2 < length bytes)%nat ->
  get_file_hash_and_size fs file_path
  = (Md5.hexdigest
       (Md5.encode (pretty (Z.of_nat (length bytes)))
        ++ firstn SAMPLE bytes ++ skipn (length bytes - SAMPLE) bytes),
     length bytes).
Proof.
  intros Hfile. unfold get_file_hash_and_size. rewrite Hfile.
  generalize SAMPLE. intros sample Hbig.
  assert (Hle : (length bytes <=? sample * 2)%nat = false)
    by (apply Nat.leb_gt; lia).
  rewrite Hle. unfold read, seek_end, update. cbn [content pos].
  rewrite skipn_O.
  assert (Hseek : (sample <=? length bytes)%nat = true)
    by (apply Nat.leb_le; lia).
  rewrite Hseek. cbn [content pos].
  rewrite (firstn_all2 (skipn _ _)) by (rewrite length_skipn; lia).
  by rewrite <- app_assoc.
Qed.

(** X13.  Above 128 KiB the signature looks at the size, the first
    64 KiB and the last 64 KiB only: two files that agree on these have
    the same signature, whatever lies between. *)
Theorem large_files_signed_by_size_head_tail (fs1 fs2 : filesystem)
    (path1 path2 : string) (bytes1 bytes2 : list Byte.byte) :
  fs1 path1 = Some bytes1 -> fs2 path2 = Some bytes2 ->
  (SAMPLE * 2 < length bytes1)%nat ->
  length bytes1 = length bytes2 ->
  firstn SAMPLE bytes1 = firstn SAMPLE bytes2 ->
  skipn (length bytes1 - SAMPLE) bytes1 = skipn (length bytes2 - SAMPLE) bytes2 ->
  get_file_hash_and_size fs1 path1 = get_file_hash_and_size fs2 path2.
Proof.
  intros H1 H2 Hbig Hlen Hhead Htail.
  rewrite (get_file_hash_and_size_large fs1 path1 bytes1 H1 Hbig).
  rewrite (get_file_hash_and_size_large fs2 path2 bytes2 H2)
    by (by rewrite <- Hlen).
  rewrite <- Hlen in Htail |- *.
  by rewrite Hhead, Htail.
Qed.

Lemma large_files_signed_by_size_head_tail_witness :
  get_file_hash_and_size (fun _ => Some (padded_file Byte.x01)) "a.png"
  = get_file_hash_and_size (fun _ => Some (padded_file Byte.x02)) "b.png".
Proof.
  assert (Hlen : forall m, length (padded_file m) = (SAMPLE + S SAMPLE)%nat).
  { intros m. unfold padded_file.
    rewrite !length_app, !repeat_length. reflexivity. }
  assert (Hhead : forall m, firstn SAMPLE (padded_file m) = repeat Byte.x00 SAMPLE).
  { intros m. unfold padded_file.
    rewrite firstn_app, repeat_length, Nat.sub_diag, firstn_O, app_nil_r.
    apply firstn_all2. by rewrite repeat_length. }
  assert (Htail : forall m, skipn (length (padded_file m) - SAMPLE) (padded_file m)
                            = repeat Byte.x00 SAMPLE).
  { intros m. rewrite Hlen.
    replace (SAMPLE + S SAMPLE - SAMPLE)%nat with (S SAMPLE) by lia.
    unfold padded_file. rewrite skipn_app, repeat_length.
    rewrite skipn_all2 by (rewrite repeat_length; lia).
    replace (S SAMPLE - SAMPLE)%nat with 1%nat by lia. reflexivity. }
  apply (large_files_signed_by_size_head_tail _ _ _ _
           (padded_file Byte.x01) (padded_file Byte.x02)).
  - reflexivity.
  - reflexivity.
  - rewrite Hlen. lia.
  - by rewrite !Hlen.
  - by rewrite !Hhead.
  - by rewrite !Htail.
Defined.

End FileSignatureProperties.

(** ** Plan executor, further *)

Section PlanExecutorProperties.
Import Executor Spec ExecutorMore.
Context {world : Type} {CS : CardService world}.

(** X25.  Whatever the card service does, the executor makes at most
    one attribute call and at most one move call, in this order, both
    on the card id it was given; and it reports what it would report
    without the recording. *)
Theorem apply_plan_calls (w : world) (log : list call) (card_id : string) (p : plan) :
  (@apply_plan _ (traced CS) (w, log) card_id p).1.2 = log ++ calls_of card_id p
  /\ (@apply_plan _ (traced CS) (w, log) card_id p).1.1 = (apply_plan w card_id p).1
  /\ (@apply_plan _ (traced CS) (w, log) card_id p).2 = (apply_plan w card_id p).2.
Proof.
  unfold apply_plan, apply_attributes, calls_of.
  cbn [traced modify_card_attributes_internal move_card_internal fst snd].
  destruct (nonempty (add_tags p) || nonempty (remove_tags p)
            || bool_decide (favorite p <> None)).
  - destruct (modify_card_attributes_internal w card_id (add_tags p)
                (remove_tags p) (favorite p)) as [w1 ok].
    destruct ok, (move p) as [target|]; cbn [fst snd];
      try destruct (move_card_internal w1 card_id target) as [w2 [[ok2 new_id] msg]];
      try destruct ok2; cbn [fst snd]; rewrite <- ?app_assoc, ?app_nil_r; done.
  - destruct (move p) as [target|]; cbn [fst snd];
      try destruct (move_card_internal w card_id target) as [w2 [[ok2 new_id] msg]];
      try destruct ok2; cbn [fst snd]; rewrite ?app_nil_r; done.
Qed.

End PlanExecutorProperties.

(** ** Rule store, further *)

Section AsciiStrip.
Import Builtins Manager Spec ManagerMore.

Lemma illegal_not_space (c : ascii) : illegal c = true -> PyStr.is_space c = false.
Proof.
  unfold illegal. cbn [existsb]. rewrite !orb_true_iff.
  intros H. repeat (destruct H as [H|H]; [apply Ascii.eqb_eq in H; by subst|]).
  discriminate H.
Qed.

Lemma replaced_space (c : ascii) :
  PyStr.is_space (if illegal c then "_"%char else c) = PyStr.is_space c.
Proof.
  destruct (illegal c) eqn:E; [|done]. by rewrite (illegal_not_space c E).
Qed.

Lemma replaced_legal (c : ascii) : illegal (if illegal c then "_"%char else c) = false.
Proof. by destruct (illegal c) eqn:E. Qed.

Lemma replace_class_empty (s : string) :
  PyStr.replace_class illegal "_" s = EmptyString <-> s = EmptyString.
Proof. by destruct s. Qed.

Lemma replace_class_legal (s : string) :
  all_chars (fun c => negb (illegal c)) (PyStr.replace_class illegal "_" s) = true.
Proof.
  induction s as [|c s IH]; [done|].
  cbn [PyStr.replace_class all_chars]. by rewrite replaced_legal, IH.
Qed.

Lemma replace_class_fixed (s : string) :
  all_chars (fun c => negb (illegal c)) s = true ->
  PyStr.replace_class illegal "_" s = s.
Proof.
  induction s as [|c s IH]; [done|]. cbn [all_chars PyStr.replace_class].
  intros H. apply andb_true_iff in H as [Hc Hs].
  apply negb_true_iff in Hc. by rewrite Hc, IH.
Qed.

Lemma lstrip_replace (s : string) :
  PyStr.lstrip (PyStr.replace_class illegal "_" s)
  = PyStr.replace_class illegal "_" (PyStr.lstrip s).
Proof.
  induction s as [|c s IH]; [done|].
  cbn [PyStr.replace_class PyStr.lstrip]. rewrite replaced_space.
  by destruct (PyStr.is_space c).
Qed.

Lemma rstrip_replace (s : string) :
  PyStr.rstrip (PyStr.replace_class illegal "_" s)
  = PyStr.replace_class illegal "_" (PyStr.rstrip s).
Proof.
  induction s as [|c s IH]; [done|].
  cbn [PyStr.replace_class PyStr.rstrip]. rewrite IH, replaced_space.
  destruct (PyStr.rstrip s) as [|c' r']; cbn [PyStr.replace_class]; [|done].
  by destruct (PyStr.is_space c).
Qed.

Lemma lstrip_clean (s : string) : starts_clean (PyStr.lstrip s) = true.
Proof.
  induction s as [|c s IH]; [done|]. cbn [PyStr.lstrip].
  destruct (PyStr.is_space c) eqn:E; [done|]. cbn. by rewrite E.
Qed.

Lemma lstrip_fixed (s : string) : starts_clean s = true -> PyStr.lstrip s = s.
Proof.
  destruct s as [|c s]; [done|]. cbn. intros H.
  apply negb_true_iff in H. by rewrite H.
Qed.

Lemma rstrip_clean (s : string) :
  starts_clean s = true -> starts_clean (PyStr.rstrip s) = true.
Proof.
  destruct s as [|c s]; [done|]. cbn [starts_clean PyStr.rstrip]. intros H.
  apply negb_true_iff in H. rewrite H.
  destruct (PyStr.rstrip s); cbn; by rewrite H.
Qed.

Lemma rstrip_cons (c : ascii) (r : string) :
  PyStr.rstrip r <> EmptyString -> PyStr.rstrip (String c r) = String c (PyStr.rstrip r).
Proof. cbn [PyStr.rstrip]. by destruct (PyStr.rstrip r). Qed.

Lemma rstrip_twice (s : string) : PyStr.rstrip (PyStr.rstrip s) = PyStr.rstrip s.
Proof.
  induction s as [|c s IH]; [done|].
  destruct (PyStr.rstrip s) as [|c' r'] eqn:E.
  - cbn [PyStr.rstrip]. rewrite E.
    destruct (PyStr.is_space c) eqn:Hc; [done|]. cbn. by rewrite Hc.
  - rewrite rstrip_cons by (by rewrite E). rewrite E.
    rewrite rstrip_cons; [by rewrite IH | by rewrite IH].
Qed.

Lemma strip_twice (s : string) : PyStr.strip (PyStr.strip s) = PyStr.strip s.
Proof.
  unfold PyStr.strip.
  rewrite (lstrip_fixed (PyStr.rstrip (PyStr.lstrip s)))
    by apply rstrip_clean, lstrip_clean.
  apply rstrip_twice.
Qed.

Lemma strip_replace (s : string) :
  PyStr.strip (PyStr.replace_class illegal "_" s)
  = PyStr.replace_class illegal "_" (PyStr.strip s).
Proof. unfold PyStr.strip. by rewrite lstrip_replace, rstrip_replace. Qed.

End AsciiStrip.

Section SanitizeProperties.
Import Builtins Manager Spec ManagerMore.
Context {TX : Text}.

(** X26.  An id made by [_sanitize_filename] is never empty and holds
    none of the nine characters its pattern replaces (backslash, slash,
    star, question mark, colon, double quote, angle brackets, bar),
    whatever the name and whatever [str.strip] removes. *)
Theorem _sanitize_filename_safe (name : value) :
  _sanitize_filename name <> EmptyString
  /\ all_chars (fun c => negb (illegal c)) (_sanitize_filename name) = true.
Proof.
  split; [apply _sanitize_filename_nonempty|].
  unfold _sanitize_filename.
  destruct (String.eqb _ EmptyString); [by vm_compute|].
  apply replace_class_legal.
Qed.

(** X27.  Sanitizing is idempotent: an id that came out of
    [_sanitize_filename] is its own sanitized form.  Of [str.strip]
    this uses that stripping twice is stripping once, that it removes
    the same blanks after the nine characters are replaced by
    underscores (none of them, nor the underscore, is a blank), and
    that it leaves the default name as it is. *)
Theorem _sanitize_filename_idempotent (name : value) :
  (forall s, str_strip (str_strip s) = str_strip s) ->
  (forall s, str_strip (PyStr.replace_class illegal "_" s)
             = PyStr.replace_class illegal "_" (str_strip s)) ->
  str_strip "Untitled_Ruleset" = "Untitled_Ruleset" ->
  _sanitize_filename (VStr (_sanitize_filename name)) = _sanitize_filename name.
Proof.
  intros Htwice Hreplace Hdefault.
  unfold _sanitize_filename at 2 3.
  destruct (String.eqb_spec
              (PyStr.replace_class illegal "_" (str_strip (py_str name)))
              EmptyString) as [Heq|Hne].
  - unfold _sanitize_filename. cbn [py_str]. rewrite Hdefault. by vm_compute.
  - unfold _sanitize_filename. cbn [py_str].
    rewrite Hreplace, Htwice.
    rewrite (replace_class_fixed (PyStr.replace_class _ _ _))
      by apply replace_class_legal.
    by destruct (String.eqb_spec
                   (PyStr.replace_class illegal "_" (str_strip (py_str name)))
                   EmptyString).
Qed.

End SanitizeProperties.

Section SanitizeExamples.
Import Builtins Manager Spec ManagerMore.

Lemma _sanitize_filename_idempotent_witness :
  @_sanitize_filename ascii_text
    (VStr (@_sanitize_filename ascii_text (VStr "  a/b: c  ")))
  = @_sanitize_filename ascii_text (VStr "  a/b: c  ").
Proof.
  apply (@_sanitize_filename_idempotent ascii_text (VStr "  a/b: c  ")).
  - exact strip_twice.
  - exact strip_replace.
  - reflexivity.
Defined.

End SanitizeExamples.

Section SaveProperties.
Import Builtins Manager Spec ManagerMore.
Context {TX : Text}.












End SaveProperties.

Section SaveExamples.
Import Builtins Manager Spec ManagerMore.



End SaveExamples.
